(** * Offline voice-to-PDF endpoint ([main.py])

    A shallow embedding of the [/audio-to-pdf] request handler
    ([audio_to_pdf], lines 126-164 of [main.py]) and of the library calls it
    makes: staging the upload in a temporary file, decoding it with
    [soundfile], mixing it down to mono with [numpy], handing the samples to
    the Vosk recogniser, and laying out the transcript with [FPDF].

    Python values are modelled as follows.
    - [str]: a list of Unicode code points ([pystr]).
    - [bytes]: a list of [Byte.byte].
    - a numpy [float64]: an IEEE 754 binary64 value ([spec_float] with
      precision 53 and maximal exponent 1024, from the standard library).
    - a raised exception: the [Raise] case of [result]; the handler contains
      no [try], so an exception leaves it at the statement that raised.
    - the file system, the wall clock and the sequence of calls made to the
      external engines: the fields of [world], threaded through the handler. *)

From Stdlib Require Import ZArith NArith List Bool Lia.
From Stdlib Require Import Strings.Byte Floats.SpecFloat.
From stdpp Require Import gmap strings list.

Set Default Proof Using "Type".
Local Open Scope Z_scope.

(** ** Results and exceptions *)

(** The exceptions that can leave the handler.  The first two are raised by
    the external engines and carry an opaque message; the spec calls them
    [DecodeError] and [RecognitionError].  The others are Python's own. *)
Inductive exn : Type :=
  | DecodeError (msg : list N)          (* raised by [sf.read] *)
  | RecognitionError (msg : list N)     (* raised by [KaldiRecognizer] / [json.loads] *)
  | AttributeError                      (* [.strip()] on a value that is not a [str] *)
  | UnicodeEncodeError (codepoint : N) (position : nat)  (* strict codec *)
  | FileNotFoundError (path : string).  (* [os.remove] of a missing file *)

Inductive result (A : Type) : Type :=
  | Ok (a : A)
  | Raise (e : exn).
Arguments Ok {A} a.
Arguments Raise {A} e.

Definition is_ok {A} (r : result A) : bool :=
  match r with Ok _ => true | Raise _ => false end.

Definition rbind {A B} (r : result A) (k : A -> result B) : result B :=
  match r with
  | Ok a => k a
  | Raise e => Raise e
  end.

(** [mapM] for [result]: stops at the first element that raises. *)
Fixpoint rmap {A B} (f : A -> result B) (l : list A) : result (list B) :=
  match l with
  | [] => Ok []
  | a :: l' =>
      rbind (f a) (fun b => rbind (rmap f l') (fun bs => Ok (b :: bs)))
  end.

(** ** Python strings *)

Definition pystr := list N.

(** A [str] literal of the source, given by its ASCII characters. *)
Definition lit (s : string) : pystr :=
  map Ascii.N_of_ascii (String.list_ascii_of_string s).

(** [str.isspace] for one character, as CPython's [_PyUnicode_IsWhitespace]
    decides it: the characters [str.strip()] removes. *)
Definition is_space (c : N) : bool :=
  (((0x09 <=? c) && (c <=? 0x0D)) || ((0x1C <=? c) && (c <=? 0x20))
   || (c =? 0x85) || (c =? 0xA0) || (c =? 0x1680)
   || ((0x2000 <=? c) && (c <=? 0x200A))
   || (c =? 0x2028) || (c =? 0x2029) || (c =? 0x202F) || (c =? 0x205F)
   || (c =? 0x3000))%N.

Fixpoint lstrip (s : pystr) : pystr :=
  match s with
  | [] => []
  | c :: s' => if is_space c then lstrip s' else s
  end.

Definition rstrip (s : pystr) : pystr := rev (lstrip (rev s)).

(** [s.strip()]: leading and trailing whitespace removed. *)
Definition strip (s : pystr) : pystr := rstrip (lstrip s).

(** Python truthiness of a [str]: only the empty string is false. *)
Definition truthy (s : pystr) : bool :=
  match s with [] => false | _ :: _ => true end.

(** *** The Latin-1 codec *)

(** [s.encode("latin1")] with the default ["strict"] error handler: code
    points up to U+00FF map to the byte of the same value, any other raises
    [UnicodeEncodeError] at its position. *)
Fixpoint encode_latin1_from (pos : nat) (s : pystr) : result (list byte) :=
  match s with
  | [] => Ok []
  | c :: s' =>
      match Byte.of_N c with
      | Some b => rbind (encode_latin1_from (S pos) s') (fun bs => Ok (b :: bs))
      | None => Raise (UnicodeEncodeError c pos)
      end
  end.

Definition encode_latin1 (s : pystr) : result (list byte) :=
  encode_latin1_from 0 s.

(** [b.decode("latin1")]: total. *)
Definition decode_latin1 (b : list byte) : pystr := map Byte.to_N b.

Definition latin1 (s : pystr) : Prop := Forall (fun c => (c <= 255)%N) s.

(** ** numpy arrays of float64 *)

Definition float64 := spec_float.

Definition f64_zero : float64 := S754_zero false.
Definition f64_add : float64 -> float64 -> float64 := SFadd 53 1024.
Definition f64_div : float64 -> float64 -> float64 := SFdiv 53 1024.

(** The conversion of an element count to float64 (exact below 2^53). *)
Definition f64_of_nat (n : nat) : float64 :=
  binary_normalize 53 1024 (Z.of_nat n) 0 false.

(** What [sf.read] returns for [audio]: a one-dimensional array of [frames]
    samples for a mono file, a two-dimensional array of shape
    [(frames, channels)] otherwise ([always_2d] keeps its default [False]). *)
Inductive ndarray : Type :=
  | Array1 (data : list float64)
  | Array2 (channels : nat) (rows : list (list float64)).


(** [audio.shape[0]]: the number of frames. *)
Definition frames (a : ndarray) : nat :=
  match a with Array1 d => length d | Array2 _ rows => length rows end.

(** Every row of a two-dimensional array has [shape[1]] entries. *)
Definition well_shaped (a : ndarray) : Prop :=
  match a with
  | Array1 _ => True
  | Array2 c rows => Forall (fun r => length r = c) rows
  end.


(** *** Summation along a row

    [np.add.reduce] adds the sum of the row to the identity of addition,
    0.0.  numpy sums a contiguous row block-wise ("pairwise summation"):
    fewer than eight values in index order; up to 128 values in eight
    running sums, one per position modulo eight, that are then added as a
    balanced tree, followed by the values left over; more than 128 values by
    halves. *)

(** The eight running sums and the values left over, after [k] more blocks
    of eight values have been added to the running sums [r]. *)
Fixpoint add_blocks (k : nat) (r rest : list float64) : list float64 * list float64 :=
  match k with
  | O => (r, rest)
  | S k' => add_blocks k' (zip_with f64_add r (take 8 rest)) (drop 8 rest)
  end.

(** The eight running sums added as a balanced tree. *)
Definition sum8 (r : list float64) : float64 :=
  match r with
  | [r0; r1; r2; r3; r4; r5; r6; r7] =>
      f64_add (f64_add (f64_add r0 r1) (f64_add r2 r3))
              (f64_add (f64_add r4 r5) (f64_add r6 r7))
  | _ => f64_zero
  end.

(** The sum of 8 to 128 values. *)
Definition block_sum (a : list float64) : float64 :=
  let '(r, rest) := add_blocks (length a / 8 - 1) (take 8 a) (drop 8 a) in
  fold_left f64_add rest (sum8 r).

(** Where a row of more than 128 values is cut: at half its length, rounded
    down to a multiple of eight. *)
Definition half_cut (n : nat) : nat := (n / 2 - (n / 2) mod 8)%nat.

(** numpy's [pairwise_sum].  [fuel] bounds the depth of the halving; the
    length of the row is enough ([pairwise_sum_fuel]). *)
Fixpoint pairwise_sum (fuel : nat) (a : list float64) : float64 :=
  if (length a <? 8)%nat then fold_left f64_add a f64_zero
  else if (length a <=? 128)%nat then block_sum a
  else match fuel with
       | O => block_sum a
       | S fuel' =>
           f64_add (pairwise_sum fuel' (take (half_cut (length a)) a))
                   (pairwise_sum fuel' (drop (half_cut (length a)) a))
       end.

(** [np.add.reduce] over one row of float64 values. *)
Definition np_sum (row : list float64) : float64 :=
  if (length row <? 8)%nat then fold_left f64_add row f64_zero
  else f64_add f64_zero (pairwise_sum (length row) row).

(** [np.mean] of one row of a [(frames, channels)] array along axis 1: the
    sum of the row divided by [shape[1]]. *)
Definition np_mean (channels : nat) (row : list float64) : float64 :=
  f64_div (np_sum row) (f64_of_nat channels).

(** [audio.mean(axis=1)] *)
Definition mean_axis1 (channels : nat) (rows : list (list float64)) : list float64 :=
  map (np_mean channels) rows.

(** Lines 138-139:
<<
    if len(audio.shape) == 2:
        audio = audio.mean(axis=1)
>> *)
Definition ensure_mono (audio : ndarray) : ndarray :=
  match audio with
  | Array1 d => Array1 d
  | Array2 c rows => Array1 (mean_axis1 c rows)
  end.

(** *** [ndarray.tobytes()] for float64 *)

Definition sign_bit (s : bool) : Z := if s then 2 ^ 63 else 0.

(** The IEEE 754 binary64 bit pattern of a value.  A NaN in memory has a
    sign and a payload that are no part of its value: [nan] is the pattern
    of the NaN at hand, used for that case only. *)
Definition f64_bits (nan : Z) (x : float64) : Z :=
  match x with
  | S754_zero s => sign_bit s
  | S754_infinity s => sign_bit s + 2047 * 2 ^ 52
  | S754_nan => nan
  | S754_finite s m e =>
      sign_bit s +
      (if Z.pos m <? 2 ^ 52 then Z.pos m
       else (e + 1075) * 2 ^ 52 + (Z.pos m - 2 ^ 52))
  end.

Definition byte_of_Z (z : Z) : byte :=
  match Byte.of_N (Z.to_N (z mod 256)) with
  | Some b => b
  | None => x00
  end.

(** [n] bytes of [v], least significant first. *)
Fixpoint le_bytes (n : nat) (v : Z) : list byte :=
  match n with
  | O => []
  | S n' => byte_of_Z v :: le_bytes n' (v / 256)
  end.

(** The size in bytes of one float64 item ([dtype.itemsize]). *)
Definition itemsize : nat := 8.

Definition f64_bytes (nan : Z) (x : float64) : list byte :=
  le_bytes itemsize (f64_bits nan x).

(** The items of an array in C order. *)
Definition samples (a : ndarray) : list float64 :=
  match a with
  | Array1 d => d
  | Array2 _ rows => concat rows
  end.

(** The bit patterns that are NaNs: all exponent bits set and a mantissa
    that is not zero, with either sign. *)
Definition nan_pattern (p : Z) : Prop :=
  0 <= p < 2 ^ 64 /\ 2047 * 2 ^ 52 < p mod 2 ^ 63.

(** The items [d] in memory, each in its (little-endian) representation;
    [nan i] is the pattern of the item at index [i] when that item is a
    NaN. *)
Definition items_bytes (nan : nat -> Z) (d : list float64) : list byte :=
  concat (imap (fun i x => f64_bytes (nan i) x) d).

(** [audio.tobytes()]: the items in C order. *)
Definition tobytes (nan : nat -> Z) (a : ndarray) : list byte :=
  items_bytes nan (samples a).

(** ** The recogniser's result *)

Local Set Warnings "-register-all".

(** A JSON value, as [json.loads] builds it. *)
Inductive json : Type :=
  | JNull
  | JBool (b : bool)
  | JNumber (z : Z)
  | JString (s : pystr)
  | JArray (items : list json)
  | JObject (members : list (string * json)).

(** Line 146: [result.get("text", "").strip()].  A missing key yields the
    default [""]; [.strip()] exists on [str] values only. *)
Definition transcript_text (res : gmap string json) : result pystr :=
  match default (JString []) (res !! "text"%string) with
  | JString s => Ok (strip s)
  | _ => Raise AttributeError
  end.

(** ** The document renderer *)

(** Line 155: the phrase rendered when nothing was recognised. *)
Definition No_speech_detected : pystr := lit "No speech detected.".

(** Line 155: [text if text else "No speech detected."] *)
Definition text_or_placeholder (text : pystr) : pystr :=
  if truthy text then text else No_speech_detected.

(** Modelled from the spec: the layout engine behind [DocumentRenderer].
    [main.py] delegates layout and serialisation to class [FPDF] of the
    third-party [fpdf] package, whose code is not in the repository.  The
    model keeps what section 4.3 of the spec and lines 152-157 fix: text is
    word-wrapped at a fixed page width into lines of a fixed height, a line
    that would pass the bottom limit of the page opens a new page, the whole
    document is built in memory and then serialised once, and the serialised
    document is a string that the strict Latin-1 codec turns into bytes
    (line 157).  Font metrics, page size and the byte-level format stay
    parameters. *)
Module FPDF.

(** The parts of the engine the handler does not choose. *)
Record params : Type := Params {
  (** Word wrapping of a text at the page width with the font set. *)
  wrap : pystr -> list pystr;
  (** Positions are kept on a grid of [unit] steps per millimetre. *)
  unit : Z;
  (** The vertical position of the first line of a page. *)
  t_margin : Z;
  (** The lowest position the bottom of a line may reach. *)
  page_break_trigger : Z;
  (** The byte-level document format, given the time of the call (the
      document information records a creation date) and the encoded lines
      of every page. *)
  serialize : Z -> list (list (list byte)) -> list byte
}.

(** A document under construction: its pages (each the lines placed on it
    so far), the vertical position of the next line and the font. *)
Record t : Type := Doc {
  pages : list (list pystr);
  y : Z;
  font : option (pystr * Z)
}.

(** [FPDF()] *)
Definition new : t := Doc [] 0 None.

(** [pdf.set_font(family, size=size)] *)
Definition set_font (family : pystr) (size : Z) (d : t) : t :=
  Doc (pages d) (y d) (Some (family, size)).

(** Adds a line to the page being filled. *)
Fixpoint put_line (txt : pystr) (ps : list (list pystr)) : list (list pystr) :=
  match ps with
  | [] => [[txt]]
  | [pg] => [pg ++ [txt]]
  | pg :: ps' => pg :: put_line txt ps'
  end.

Section Engine.
Variable P : params.

(** [pdf.add_page()] *)
Definition add_page (d : t) : t :=
  Doc (pages d ++ [[]]) (t_margin P) (font d).

(** One line of height [h] millimetres: when it would pass the bottom
    limit, a new page is started first. *)
Definition cell (h : Z) (txt : pystr) (d : t) : t :=
  let d' := if page_break_trigger P <? y d + h * unit P then add_page d else d in
  Doc (put_line txt (pages d')) (y d' + h * unit P) (font d').

(** [pdf.multi_cell(w, h, txt)]: the wrapped lines of [txt], one cell
    each.  A width [w] of 0 extends the cell to the right margin. *)
Definition multi_cell (w h : Z) (txt : pystr) (d : t) : t :=
  fold_left (fun d ln => cell h ln d) (wrap P txt) d.

(** [pdf.output(dest="S")] at time [now]: the content of every page goes
    through the strict Latin-1 codec; the result is the serialised
    document as a string of characters below 256. *)
Definition output (now : Z) (d : t) : result pystr :=
  rbind (rmap (rmap encode_latin1) (pages d))
        (fun content => Ok (decode_latin1 (serialize P now content))).

(** The number of lines a page holds. *)
Definition lines_per_page (h : Z) : Z :=
  (page_break_trigger P - t_margin P) / (h * unit P).

End Engine.
End FPDF.

(** Lines 152-155:
<<
    pdf = FPDF()
    pdf.add_page()
    pdf.set_font("Arial", size=12)
    pdf.multi_cell(0, 10, text if text else "No speech detected.")
>> *)
Definition build_pdf (P : FPDF.params) (text : pystr) : FPDF.t :=
  FPDF.multi_cell P 0 10 (text_or_placeholder text)
    (FPDF.set_font (lit "Arial") 12 (FPDF.add_page P FPDF.new)).

(** Lines 152-157, at time [now]: the document for [text] as bytes. *)
Definition render (P : FPDF.params) (now : Z) (text : pystr) : result (list byte) :=
  rbind (FPDF.output P now (build_pdf P text)) encode_latin1.

(** The number of pages of the document rendered for [text]. *)
Definition page_count (P : FPDF.params) (text : pystr) : nat :=
  length (FPDF.pages (build_pdf P text)).

(** [ceil(a / b)] for a positive [b]. *)
Definition ceil_div (a b : Z) : Z := (a + b - 1) / b.

(** ** The request handler *)

(** A recogniser session, as the handler uses it. *)
Record session : Type := Session {
  (** Line 142, [SetWords(True)]. *)
  set_words : result ();
  (** Lines 144-145 on the data given: [AcceptWaveform(data)] and then
      [json.loads(FinalResult())]. *)
  batch_pass : list byte -> result (gmap string json)
}.

(** The external engines. *)
Record libs : Type := Libs {
  (** [soundfile.read] on a file with the given contents: the samples and
      the sample rate, or a decoding failure. *)
  sf_read : list byte -> result (ndarray * Z);
  (** Line 141, [KaldiRecognizer(vosk_model, samplerate)]: a recogniser
      session on the process-wide model, or the failure to create one. *)
  kaldi : Z -> result session;
  (** The memory of the sample array: the bit pattern of the item at index
      [i] of the array handed to the recogniser, when that item is a
      NaN. *)
  nan_bits : nat -> Z;
  fpdf : FPDF.params
}.

(** A call that crosses the boundary of the handler. *)
Inductive call : Type :=
  | SfRead (path : string)
  | KaldiRecognizer (samplerate : Z)
  | AcceptWaveform (samplerate : Z) (data : list byte)
  | OsRemove (path : string)
  | FpdfOutput (doc : FPDF.t).

(** What the handler can observe and change outside itself. *)
Record world : Type := World {
  fs : gmap string (list byte);   (* files by path *)
  now : Z;                        (* the wall clock *)
  calls : list call               (* boundary calls so far, oldest first *)
}.

(** Computations of the handler: they may raise and they change the world;
    the changes made before an exception stay. *)
Definition M (A : Type) : Type := world -> result A * world.

Definition ret {A} (a : A) : M A := fun w => (Ok a, w).

Definition bind {A B} (m : M A) (k : A -> M B) : M B := fun w =>
  match m w with
  | (Ok a, w') => k a w'
  | (Raise e, w') => (Raise e, w')
  end.

Declare Scope handler_scope.
Delimit Scope handler_scope with handler.
Notation "x <- m ;; k" := (bind m (fun x => k))
  (at level 100, m at next level, right associativity) : handler_scope.
Notation "m ;; k" := (bind m (fun _ => k))
  (at level 100, right associativity) : handler_scope.
Local Open Scope handler_scope.

Definition lift {A} (r : result A) : M A := fun w => (r, w).

Definition log (c : call) : M () :=
  fun w => (Ok (), World (fs w) (now w) (calls w ++ [c])).

(** The path [tempfile.NamedTemporaryFile] picks: one not in use. *)
Definition tmp_name (w : world) : string := fresh (dom (fs w)).

(** Lines 130-132: the upload is written to a new temporary file, which
    outlives the [with] block ([delete=False]). *)
Definition NamedTemporaryFile_write (data : list byte) : M string :=
  fun w => (Ok (tmp_name w), World (<[tmp_name w := data]> (fs w)) (now w) (calls w)).

(** Line 135: [sf.read(tmp_path)] *)
Definition soundfile_read (L : libs) (path : string) : M (ndarray * Z) :=
  log (SfRead path) ;;
  (fun w =>
     match fs w !! path with
     | Some data => (sf_read L data, w)
     | None => (Raise (DecodeError (lit "System error.")), w)
     end).

(** Line 141: [KaldiRecognizer(vosk_model, samplerate)] *)
Definition new_recognizer (L : libs) (samplerate : Z) : M session :=
  log (KaldiRecognizer samplerate) ;;
  lift (kaldi L samplerate).

(** Lines 144-145, on the session created on line 141. *)
Definition recognize (recognizer : session) (samplerate : Z) (data : list byte)
  : M (gmap string json) :=
  log (AcceptWaveform samplerate data) ;;
  lift (batch_pass recognizer data).

(** Line 149: [os.remove(tmp_path)] *)
Definition os_remove (path : string) : M () :=
  log (OsRemove path) ;;
  (fun w =>
     match fs w !! path with
     | Some _ => (Ok (), World (delete path (fs w)) (now w) (calls w))
     | None => (Raise (FileNotFoundError path), w)
     end).

(** Line 157, first half: [pdf.output(dest="S")] *)
Definition fpdf_output (L : libs) (d : FPDF.t) : M pystr :=
  log (FpdfOutput d) ;;
  (fun w => (FPDF.output (fpdf L) (now w) d, w)).

(** Lines 160-164. *)
Record StreamingResponse : Type := Response {
  body : list byte;
  media_type : string;
  headers : list (string * string)
}.

(** Lines 160-164. *)
Definition respond (pdf_bytes : list byte) : StreamingResponse :=
  Response pdf_bytes "application/pdf"
    [("Content-Disposition", "attachment; filename=transcribed.pdf")]%string.

(** Lines 127-164.  [print(text)] (line 147) is left out. *)
Definition audio_to_pdf (L : libs) (file : list byte) : M StreamingResponse :=
  tmp_path <- NamedTemporaryFile_write file ;;
  decoded <- soundfile_read L tmp_path ;;
  let '(audio, samplerate) := decoded in
  let audio := ensure_mono audio in
  recognizer <- new_recognizer L samplerate ;;
  lift (set_words recognizer) ;;
  result <- recognize recognizer samplerate (tobytes (nan_bits L) audio) ;;
  text <- lift (transcript_text result) ;;
  os_remove tmp_path ;;
  let pdf := build_pdf (fpdf L) text in
  s <- fpdf_output L pdf ;;
  pdf_bytes <- lift (encode_latin1 s) ;;
  ret (respond pdf_bytes).

(** ** The stages of the pipeline

    The handler is one straight-line function; the three stages the spec
    names are the following parts of it. *)

(** Lines 135-139: decoding and mixdown. *)
Definition normalize (L : libs) (file : list byte) : result (ndarray * Z) :=
  rbind (sf_read L file) (fun decoded =>
    let '(audio, samplerate) := decoded in Ok (ensure_mono audio, samplerate)).

(** Lines 141-146: a recogniser session for the sample rate, configured to
    report words, one batch pass of it over the raw bytes of the sample
    array, and the transcript taken from its result. *)
Definition transcribe (L : libs) (buffer : ndarray * Z) : result pystr :=
  rbind (kaldi L (snd buffer)) (fun recognizer =>
  rbind (set_words recognizer) (fun _ =>
  rbind (batch_pass recognizer (tobytes (nan_bits L) (fst buffer))) transcript_text)).

(** Whether line 144 is reached for a clip of the given sample rate: the
    recogniser was created and [SetWords] returned. *)
Definition recognizer_ready (L : libs) (samplerate : Z) : bool :=
  match kaldi L samplerate with
  | Ok recognizer => is_ok (set_words recognizer)
  | Raise _ => false
  end.

(** The three stages in sequence, each run only when the one before it
    returned. *)
Definition stages (L : libs) (now : Z) (file : list byte) : result StreamingResponse :=
  rbind (normalize L file) (fun buffer =>
  rbind (transcribe L buffer) (fun text =>
  rbind (render (fpdf L) now text) (fun pdf_bytes =>
  Ok (respond pdf_bytes)))).


(** A stereo frame with its left and right values exchanged. *)
Definition swap_channels (fr : list float64) : list float64 :=
  match fr with
  | [l; r] => [r; l]
  | _ => fr
  end.

(** The length in bytes of a mono buffer of the frames of [a] with
    [width] bytes per sample: 2 for 16-bit PCM, 4 for 32-bit PCM. *)
Definition pcm_length (width : nat) (a : ndarray) : nat := (width * frames a)%nat.

(** The waveforms handed to the recogniser among the calls [cs], each with
    the sample rate of its session. *)
Definition waveforms (cs : list call) : list (Z * list byte) :=
  flat_map (fun c => match c with
                     | AcceptWaveform rate data => [(rate, data)]
                     | _ => []
                     end) cs.

(** The world in which the upload has been staged and the decoder called. *)
Definition staged (file : list byte) (w : world) : world :=
  World (<[tmp_name w := file]> (fs w)) (now w) (calls w ++ [SfRead (tmp_name w)]).

(** ** Requests in sequence *)

(** The part of a request that runs before line 149: decoding, mixdown,
    recognition and the extraction of the transcript. *)
Definition before_remove (L : libs) (file : list byte) : result pystr :=
  rbind (normalize L file) (transcribe L).

(** A request: the upload, the clock reading at which its document is
    written, and the NaN patterns in the memory of its sample array. *)
Record request : Type := Request {
  upload : list byte;
  served_at : Z;
  memory : nat -> Z
}.

(** The engines as they run for one request. *)
Definition engines_for (L : libs) (q : request) : libs :=
  Libs (sf_read L) (kaldi L) (memory q) (fpdf L).

(** The world when the clock reads [t]. *)
Definition at_time (t : Z) (w : world) : world := World (fs w) t (calls w).

(** Requests handled one at a time, each served in the world the one before
    it left, at its own clock reading: the responses (or exceptions) in
    order, and the final world. *)
Fixpoint serve (L : libs) (requests : list request) (w : world)
  : list (result StreamingResponse) * world :=
  match requests with
  | [] => ([], w)
  | q :: requests' =>
      let '(r, w1) := audio_to_pdf (engines_for L q) (upload q) (at_time (served_at q) w) in
      let '(rs, w2) := serve L requests' w1 in
      (r :: rs, w2)
  end.

(** ** Reading bytes back *)

(** The number a little-endian byte string stands for. *)
Fixpoint le_value (bs : list byte) : Z :=
  match bs with
  | [] => 0
  | b :: bs' => Z.of_N (Byte.to_N b) + 256 * le_value bs'
  end.

(** The float64 values that exist in memory: zeros, infinities, NaN, and
    finite values with a mantissa and exponent in canonical form. *)
Definition valid_f64 (x : float64) : Prop := valid_binary 53 1024 x = true.

(** ** Silence *)

(** [audio.shape[1]] for a two-dimensional array, 1 for a mono one. *)
Definition channels (a : ndarray) : nat :=
  match a with Array1 _ => 1%nat | Array2 c _ => c end.

(** Digital silence: every sample of every channel is 0.0. *)
Definition silent (a : ndarray) : Prop := Forall (fun x => x = f64_zero) (samples a).

(** ** Test doubles

    Concrete engines on which the statements below are exercised. *)
Module Stub.

(** 0.5, 0.25 and -0.5 as float64. *)
Definition half : float64 := S754_finite false 4503599627370496 (-53).
Definition quarter : float64 := S754_finite false 4503599627370496 (-54).
Definition minus_half : float64 := S754_finite true 4503599627370496 (-53).

(** 2^53, -2^53 and 1.0 as float64. *)
Definition big : float64 := S754_finite false 4503599627370496 1.
Definition minus_big : float64 := S754_finite true 4503599627370496 1.
Definition one : float64 := S754_finite false 4503599627370496 (-52).

(** A frame of eight channels whose sum depends on the order in which its
    values are added. *)
Definition eight : list float64 :=
  [big; one; one; minus_big; f64_zero; f64_zero; f64_zero; f64_zero].

(** A two-frame stereo clip and the same clip with its channels swapped. *)
Definition stereo : ndarray := Array2 2 [[half; quarter]; [minus_half; half]].
Definition stereo_swapped : ndarray := Array2 2 [[quarter; half]; [half; minus_half]].

(** A decoder that accepts the streams that start with the RIFF magic, as
    a 16 kHz clip, and rejects every other stream. *)
Definition read (data : list byte) : result (ndarray * Z) :=
  match data with
  | x52 :: x49 :: x46 :: x46 :: _ => Ok (stereo, 16000)
  | _ => Raise (DecodeError (lit "Format not recognised."))
  end.

(** A recogniser that hears nothing in an empty waveform, the given
    transcript otherwise, and rejects sample rates other than 16 kHz. *)
Definition hears (heard : pystr) (samplerate : Z) : result session :=
  if samplerate =? 16000 then
    Ok (Session (Ok ())
          (fun data =>
             Ok {[ "text"%string := JString (match data with [] => [] | _ => heard end) ]}))
  else Raise (RecognitionError (lit "Failed to create a recognizer")).

(** A memory in which every NaN is the quiet NaN 7FF8000000000000, and one
    in which every NaN is that NaN with its sign bit set, FFF8000000000000. *)
Definition quiet_nan : nat -> Z := fun _ => 9221120237041090560.
Definition signed_nan : nat -> Z := fun _ => 18444492273895866368.

(** Line breaking for text that never reaches the right margin: only the
    explicit breaks (U+000A) end a line. *)
Fixpoint split_lines (cur : pystr) (s : pystr) : list pystr :=
  match s with
  | [] => [rev cur]
  | c :: s' => if (c =? 10)%N then rev cur :: split_lines [] s'
               else split_lines (c :: cur) s'
  end.

(** A4 portrait with margins of one centimetre and a bottom limit two
    centimetres above the edge, on a grid of 1000 steps per millimetre; a
    format that lists the pages' bytes after the creation time. *)
Definition a4 : FPDF.params :=
  {| FPDF.wrap := split_lines [];
     FPDF.unit := 1000;
     FPDF.t_margin := 10000;
     FPDF.page_break_trigger := 277000;
     FPDF.serialize := fun now content =>
       le_bytes 8 now ++ concat (map (fun pg => xff :: concat pg) content) |}.

Definition engines (heard : pystr) : libs :=
  Libs read (hears heard) quiet_nan a4.

(** The same engines with a recogniser whose model failed to load. *)
Definition no_model : libs :=
  Libs read (fun _ => Raise (RecognitionError (lit "Failed to create a recognizer")))
       quiet_nan a4.

(** The same engines with a recogniser that is created but whose
    [SetWords] raises. *)
Definition unconfigurable : libs :=
  Libs read
       (fun _ => Ok (Session (Raise (RecognitionError (lit "SetWords failed")))
                                (fun _ => Ok ∅)))
       quiet_nan a4.

(** An empty file system at time 0. *)
Definition boot : world := World ∅ 0 [].

(** An upload that carries the RIFF magic and one that does not. *)
Definition riff : list byte := [x52; x49; x46; x46; x00].
Definition garbage : list byte := [x00; x01; x02].

(** A transcript of 31 one-letter lines. *)
Definition long_text : pystr := concat (repeat [97; 10]%N 30) ++ [97]%N.

(** U+20AC, the euro sign. *)
Definition euro : pystr := [8364]%N.

(** Two frames of stereo silence. *)
Definition hush : ndarray := Array2 2 [[f64_zero; f64_zero]; [f64_zero; f64_zero]].

(** Another upload that carries the RIFF magic. *)
Definition riff_again : list byte := [x52; x49; x46; x46; x01; x02].

(** A world in which a file of someone else already exists. *)
Definition busy : world := World {[ "notes.txt"%string := [x68; x69] ]} 0 [].

End Stub.

(** * Properties *)

(** ** Results *)

Lemma rmap_ok_length {A B} (f : A -> result B) (l : list A) (bs : list B) :
  rmap f l = Ok bs -> length bs = length l.
Proof.
  revert bs; induction l as [|a l IH]; simpl; intros bs H.
  - injection H as <-; reflexivity.
  - destruct (f a) as [b|e]; simpl in H; [|discriminate].
    destruct (rmap f l) as [bs'|e]; simpl in H; [|discriminate].
    injection H as <-; simpl; f_equal; auto.
Qed.

Lemma rmap_is_ok {A B} (f : A -> result B) (l : list A) :
  is_ok (rmap f l) = true <-> Forall (fun a => is_ok (f a) = true) l.
Proof.
  induction l as [|a l IH]; simpl.
  - split; auto.
  - rewrite Forall_cons, <- IH.
    destruct (f a) as [b|e]; simpl; [|intuition discriminate].
    destruct (rmap f l) as [bs|e]; simpl; intuition discriminate.
Qed.

(** ** The Latin-1 codec *)

Lemma encode_latin1_from_is_ok (pos : nat) (s : pystr) :
  is_ok (encode_latin1_from pos s) = true <-> latin1 s.
Proof.
  unfold latin1; revert pos; induction s as [|c s IH]; intros pos; simpl.
  - split; auto.
  - rewrite Forall_cons. destruct (Byte.of_N c) as [b|] eqn:Hc.
    + specialize (IH (S pos)).
      assert (c <= 255)%N.
      { apply Byte.to_of_N in Hc; subst c; apply Byte.to_N_bounded. }
      destruct (encode_latin1_from (S pos) s); simpl in *; intuition.
    + apply Byte.of_N_None_iff in Hc. simpl. split; [discriminate|].
      intros [Hle _]; lia.
Qed.

Lemma encode_latin1_is_ok (s : pystr) : is_ok (encode_latin1 s) = true <-> latin1 s.
Proof. apply encode_latin1_from_is_ok. Qed.

(** A failure of the codec is a [UnicodeEncodeError] for a character of the
    string that lies above U+00FF. *)
Lemma encode_latin1_from_raise (pos : nat) (s : pystr) (e : exn) :
  encode_latin1_from pos s = Raise e ->
  exists c i, e = UnicodeEncodeError c i /\ c ∈ s /\ (255 < c)%N.
Proof.
  revert pos; induction s as [|c s IH]; intros pos; simpl; [discriminate|].
  destruct (Byte.of_N c) as [b|] eqn:Hc.
  - destruct (encode_latin1_from (S pos) s) as [bs|e'] eqn:Hs; simpl; [discriminate|].
    intros [= <-]. destruct (IH _ Hs) as (c' & i & -> & Hin & Hgt).
    exists c', i; repeat split; auto. now right.
  - intros [= <-]. exists c, pos; repeat split; [now left|].
    now apply Byte.of_N_None_iff.
Qed.

Lemma encode_decode_latin1_from (pos : nat) (b : list byte) :
  encode_latin1_from pos (decode_latin1 b) = Ok b.
Proof.
  revert pos; induction b as [|x b IH]; intros pos; simpl; [reflexivity|].
  now rewrite Byte.of_to_N, IH.
Qed.

(** Encoding what was decoded gives the bytes back. *)
Lemma encode_decode_latin1 (b : list byte) : encode_latin1 (decode_latin1 b) = Ok b.
Proof. apply encode_decode_latin1_from. Qed.

Lemma latin1_lit (s : string) : latin1 (lit s).
Proof.
  unfold latin1, lit. apply Forall_forall. intros c Hc.
  apply list_elem_of_In, in_map_iff in Hc. destruct Hc as (a & <- & _).
  pose proof (Ascii.N_ascii_bounded a). lia.
Qed.

(** ** [str.strip] *)

Lemma lstrip_spaces (s : pystr) :
  Forall (fun c => is_space c = true) s -> lstrip s = [].
Proof.
  induction 1 as [|c s Hc _ IH]; simpl; [reflexivity|]. now rewrite Hc.
Qed.

Lemma strip_spaces (s : pystr) :
  Forall (fun c => is_space c = true) s -> strip s = [].
Proof.
  intros H. unfold strip, rstrip. now rewrite (lstrip_spaces s H).
Qed.

Lemma lstrip_head (s : pystr) (c : N) (s' : pystr) :
  lstrip s = c :: s' -> is_space c = false.
Proof.
  induction s as [|a s IH]; simpl; [discriminate|].
  destruct (is_space a) eqn:Ha; auto. intros [= -> _]; exact Ha.
Qed.

(** A stripped string is empty exactly when the string is all whitespace. *)
Lemma strip_nil_iff (s : pystr) :
  strip s = [] <-> Forall (fun c => is_space c = true) s.
Proof.
  split; [|apply strip_spaces].
  assert (Hl : forall t, lstrip t = [] -> Forall (fun c => is_space c = true) t).
  { induction t as [|a t IH]; simpl; [constructor|].
    destruct (is_space a) eqn:Ha; [|discriminate]. constructor; auto. }
  unfold strip, rstrip. intros H.
  assert (H' : lstrip (rev (lstrip s)) = []).
  { rewrite <- (rev_involutive (lstrip (rev (lstrip s)))), H. reflexivity. }
  apply Hl in H'. apply Forall_rev in H'. rewrite rev_involutive in H'.
  destruct (lstrip s) as [|c t] eqn:Hs; [now apply Hl|].
  apply lstrip_head in Hs. apply Forall_cons in H'. destruct H' as [Hc _]. congruence.
Qed.

(** ** float64 addition and the mixdown *)

Lemma f64_add_comm (x y : float64) : f64_add x y = f64_add y x.
Proof.
  unfold f64_add, SFadd.
  destruct x as [[]|[]| |sx mx ex], y as [[]|[]| |sy my ey]; try reflexivity.
  rewrite (Z.min_comm ey ex), Z.add_comm. reflexivity.
Qed.

Lemma f64_zero_add_finite (s : bool) (m : positive) (e : Z) :
  f64_add f64_zero (S754_finite s m e) = S754_finite s m e.
Proof. reflexivity. Qed.

(** The sum of a stereo frame does not depend on the order of its values. *)
Lemma np_sum_swap (l r : float64) : np_sum [l; r] = np_sum [r; l].
Proof.
  unfold np_sum, fold_left.
  destruct l as [[]|[]| |sl ml el], r as [[]|[]| |sr mr er]; try reflexivity.
  rewrite !f64_zero_add_finite. apply f64_add_comm.
Qed.

(** The cut of a long row leaves two shorter rows, neither empty. *)
Lemma half_cut_bounds (n : nat) : (128 < n)%nat -> (0 < half_cut n < n)%nat.
Proof.
  intros Hn. unfold half_cut.
  pose proof (Nat.mod_upper_bound (n / 2) 8 ltac:(lia)) as H8.
  pose proof (Nat.div_mod_eq n 2) as H2.
  pose proof (Nat.mod_upper_bound n 2 ltac:(lia)) as Hm.
  pose proof (Nat.Div0.mod_le (n / 2) 8) as Hle.
  lia.
Qed.

Lemma pairwise_sum_S (fuel : nat) (a : list float64) :
  pairwise_sum (S fuel) a
  = if (length a <? 8)%nat then fold_left f64_add a f64_zero
    else if (length a <=? 128)%nat then block_sum a
    else f64_add (pairwise_sum fuel (take (half_cut (length a)) a))
                 (pairwise_sum fuel (drop (half_cut (length a)) a)).
Proof. reflexivity. Qed.

(** The halving ends before the fuel does: with fuel for the length of the
    row, the sum does not depend on the fuel. *)
Lemma pairwise_sum_fuel (f1 f2 : nat) (a : list float64) :
  (length a <= f1)%nat -> (length a <= f2)%nat -> pairwise_sum f1 a = pairwise_sum f2 a.
Proof.
  revert f2 a; induction f1 as [|f1 IH]; intros f2 a H1 H2.
  - destruct a; [|simpl in H1; lia]. destruct f2; reflexivity.
  - destruct f2 as [|f2].
    + destruct a; [reflexivity|simpl in H2; lia].
    + rewrite !pairwise_sum_S. destruct (length a <? 8)%nat eqn:E8; [reflexivity|].
      destruct (length a <=? 128)%nat eqn:E128; [reflexivity|].
      apply Nat.leb_gt in E128. pose proof (half_cut_bounds _ E128).
      f_equal; apply IH; rewrite ?length_take, ?length_drop; lia.
Qed.

(** A row of more than 128 values is summed by halves. *)
Lemma pairwise_sum_halves (fuel : nat) (a : list float64) :
  (128 < length a <= fuel)%nat ->
  pairwise_sum fuel a
  = f64_add (pairwise_sum fuel (take (half_cut (length a)) a))
            (pairwise_sum fuel (drop (half_cut (length a)) a)).
Proof.
  intros [Hlong Hfuel]. destruct fuel as [|fuel]; [lia|].
  pose proof (half_cut_bounds _ Hlong) as Hcut.
  rewrite (pairwise_sum_S fuel a).
  destruct (Nat.ltb_spec (length a) 8); [lia|].
  destruct (Nat.leb_spec (length a) 128); [lia|].
  f_equal; apply pairwise_sum_fuel; rewrite ?length_take, ?length_drop; lia.
Qed.

(** Eight values are not added in index order: 2^53 + 1 + 1 - 2^53 is 0 when
    added from the left, each 1 being lost to rounding, and 1 when added as
    (2^53 + 1) + (1 - 2^53). *)
Example eight_channel_sum :
  np_sum Stub.eight = Stub.one /\
  fold_left f64_add Stub.eight f64_zero = f64_zero /\
  ensure_mono (Array2 8 [Stub.eight]) = Array1 [S754_finite false 4503599627370496 (-55)].
Proof. repeat split; reflexivity. Qed.

Lemma np_mean_swap (c : nat) (fr : list float64) :
  np_mean c (swap_channels fr) = np_mean c fr.
Proof.
  destruct fr as [|l [|r [|x fr]]]; try reflexivity.
  unfold np_mean, swap_channels. now rewrite np_sum_swap.
Qed.

Lemma length_mean_axis1 (c : nat) (rows : list (list float64)) :
  length (mean_axis1 c rows) = length rows.
Proof. apply length_map. Qed.

Lemma frames_ensure_mono (a : ndarray) : frames (ensure_mono a) = frames a.
Proof. destruct a; simpl; [reflexivity|apply length_mean_axis1]. Qed.



(** ** [tobytes] *)

Lemma length_le_bytes (n : nat) (v : Z) : length (le_bytes n v) = n.
Proof. revert v; induction n as [|n IH]; intros v; simpl; [reflexivity|]. now rewrite IH. Qed.

Lemma length_f64_bytes (nan : Z) (x : float64) : length (f64_bytes nan x) = itemsize.
Proof. apply length_le_bytes. Qed.

Lemma items_bytes_cons (nan : nat -> Z) (x : float64) (d : list float64) :
  items_bytes nan (x :: d) = f64_bytes (nan 0%nat) x ++ items_bytes (nan ∘ S) d.
Proof. reflexivity. Qed.

Lemma length_items_bytes (nan : nat -> Z) (d : list float64) :
  length (items_bytes nan d) = (itemsize * length d)%nat.
Proof.
  revert nan; induction d as [|x d IH]; intros nan; [reflexivity|].
  rewrite items_bytes_cons, length_app, length_f64_bytes, IH. simpl length. lia.
Qed.

(** The eight bytes of the item at index [i]. *)
Lemma items_bytes_lookup (nan : nat -> Z) (d : list float64) (i : nat) (x : float64) :
  d !! i = Some x ->
  take itemsize (drop (itemsize * i) (items_bytes nan d)) = f64_bytes (nan i) x.
Proof.
  revert nan i; induction d as [|y d IH]; intros nan i Hi; [now destruct i|].
  rewrite items_bytes_cons. destruct i as [|i]; simpl in Hi.
  - injection Hi as ->. rewrite Nat.mul_0_r, drop_0.
    unfold itemsize at 1. rewrite <- (length_f64_bytes (nan 0%nat) x) at 1.
    apply take_app_length.
  - replace (itemsize * S i)%nat with (length (f64_bytes (nan 0%nat) y) + itemsize * i)%nat
      by (rewrite length_f64_bytes; lia).
    rewrite drop_app_add. apply (IH (nan ∘ S) i Hi).
Qed.

(** ** Running the handler *)

Lemma tmp_name_fresh (w : world) : fs w !! tmp_name w = None.
Proof. apply not_elem_of_dom. unfold tmp_name. apply is_fresh. Qed.

Lemma run_decode_failed (L : libs) (file : list byte) (w : world) (e : exn) :
  sf_read L file = Raise e ->
  audio_to_pdf L file w = (Raise e, staged file w).
Proof.
  intros H. unfold audio_to_pdf, bind, NamedTemporaryFile_write, soundfile_read, log, bind.
  simpl. rewrite lookup_insert_eq, H. reflexivity.
Qed.

(** The calls made between decoding and the failure of recognition: the
    creation of the recogniser, and the hand-over of the waveform when line
    144 was reached. *)
Lemma run_recognition_failed (L : libs) (file : list byte) (w : world)
    (audio : ndarray) (rate : Z) (e : exn) :
  sf_read L file = Ok (audio, rate) ->
  transcribe L (ensure_mono audio, rate) = Raise e ->
  audio_to_pdf L file w =
    (Raise e,
     World (<[tmp_name w := file]> (fs w)) (now w)
       (calls w ++ [SfRead (tmp_name w); KaldiRecognizer rate]
                ++ (if recognizer_ready L rate
                    then [AcceptWaveform rate (tobytes (nan_bits L) (ensure_mono audio))]
                    else []))).
Proof.
  intros H1 H2. unfold transcribe in H2. simpl in H2.
  unfold audio_to_pdf, bind, NamedTemporaryFile_write, soundfile_read, new_recognizer,
    recognize, lift, log, bind, recognizer_ready.
  simpl. rewrite lookup_insert_eq, H1. simpl.
  destruct (kaldi L rate) as [recognizer|e']; simpl in *.
  - rewrite <- !app_assoc. simpl.
    destruct (set_words recognizer) as [[]|e']; simpl in *.
    + destruct (batch_pass recognizer (tobytes (nan_bits L) (ensure_mono audio)))
        as [res|e']; simpl in *.
      * now rewrite H2.
      * congruence.
    + congruence.
  - rewrite <- !app_assoc. simpl. congruence.
Qed.

Lemma transcribe_ready (L : libs) (buffer : ndarray * Z) (text : pystr) :
  transcribe L buffer = Ok text -> recognizer_ready L (snd buffer) = true.
Proof.
  unfold transcribe, recognizer_ready.
  destruct (kaldi L (snd buffer)) as [recognizer|e]; simpl; [|discriminate].
  destruct (set_words recognizer); simpl; [reflexivity|discriminate].
Qed.

Lemma run_transcribed (L : libs) (file : list byte) (w : world)
    (audio : ndarray) (rate : Z) (text : pystr) :
  sf_read L file = Ok (audio, rate) ->
  transcribe L (ensure_mono audio, rate) = Ok text ->
  audio_to_pdf L file w =
    (rbind (render (fpdf L) (now w) text) (fun pdf_bytes => Ok (respond pdf_bytes)),
     World (fs w) (now w)
       (calls w ++ [SfRead (tmp_name w);
                    KaldiRecognizer rate;
                    AcceptWaveform rate (tobytes (nan_bits L) (ensure_mono audio));
                    OsRemove (tmp_name w);
                    FpdfOutput (build_pdf (fpdf L) text)])).
Proof.
  intros H1 H2. unfold transcribe in H2. simpl in H2.
  unfold audio_to_pdf, bind, NamedTemporaryFile_write, soundfile_read, new_recognizer,
    recognize, os_remove, fpdf_output, lift, log, bind, ret.
  simpl. rewrite lookup_insert_eq, H1. simpl.
  destruct (kaldi L rate) as [recognizer|e']; simpl in *; [|discriminate].
  destruct (set_words recognizer) as [[]|e']; simpl in *; [|discriminate].
  destruct (batch_pass recognizer (tobytes (nan_bits L) (ensure_mono audio))) as [res|e'];
    simpl in *; [|discriminate].
  rewrite H2. simpl. rewrite lookup_insert_eq. simpl.
  rewrite delete_insert_eq, delete_id by apply tmp_name_fresh.
  rewrite <- !app_assoc. simpl. unfold render.
  destruct (FPDF.output (fpdf L) (now w) (build_pdf (fpdf L) text)) as [s|e]; simpl;
    [|reflexivity].
  destruct (encode_latin1 s); reflexivity.
Qed.

(** ** Layout *)

Lemma rmap_raise {A B} (f : A -> result B) (l : list A) (e : exn) :
  rmap f l = Raise e -> exists a, a ∈ l /\ f a = Raise e.
Proof.
  induction l as [|a l IH]; simpl; [discriminate|].
  destruct (f a) as [b|e'] eqn:Ha; simpl.
  - destruct (rmap f l) as [bs|e'']; simpl; [discriminate|].
    intros [= <-]. destruct IH as (a' & Hin & Hf); [reflexivity|].
    exists a'. split; [now right|exact Hf].
  - intros [= <-]. exists a. split; [now left|exact Ha].
Qed.

Lemma length_put_line (txt : pystr) (ps : list (list pystr)) :
  ps <> [] -> length (FPDF.put_line txt ps) = length ps.
Proof.
  induction ps as [|pg ps IH]; [congruence|]. intros _.
  destruct ps as [|pg' ps]; [reflexivity|].
  change (length (pg :: FPDF.put_line txt (pg' :: ps)) = length (pg :: pg' :: ps)).
  simpl length. f_equal. now apply IH.
Qed.

Lemma concat_put_line (txt : pystr) (ps : list (list pystr)) :
  concat (FPDF.put_line txt ps) = concat ps ++ [txt].
Proof.
  induction ps as [|pg ps IH]; [reflexivity|].
  destruct ps as [|pg' ps].
  - simpl. now rewrite !app_nil_r.
  - change (concat (pg :: FPDF.put_line txt (pg' :: ps)) = concat (pg :: pg' :: ps) ++ [txt]).
    rewrite !concat_cons, IH, app_assoc. reflexivity.
Qed.

Section Layout.
Variable P : FPDF.params.
Variable h : Z.
Let hu : Z := h * FPDF.unit P.
Let cap : Z := FPDF.lines_per_page P h.

Hypothesis hu_pos : 0 < h * FPDF.unit P.

(** With [k] lines on the page, the next line breaks the page exactly when
    the page is full. *)
Lemma page_break_iff (k : Z) :
  0 <= k ->
  (FPDF.page_break_trigger P <? FPDF.t_margin P + k * hu + hu) = (cap <? k + 1).
Proof using hu_pos.
  intros Hk. subst hu cap. unfold FPDF.lines_per_page.
  set (a := FPDF.page_break_trigger P - FPDF.t_margin P).
  set (b := h * FPDF.unit P) in *.
  destruct (Z.ltb_spec (a / b) (k + 1)) as [Hlt|Hge].
  - apply Z.ltb_lt.
    pose proof (Z.div_mod a b ltac:(lia)). pose proof (Z.mod_pos_bound a b hu_pos).
    subst a. nia.
  - apply Z.ltb_ge. pose proof (Z.mul_div_le a b hu_pos). subst a. nia.
Qed.

(** Every line handed to [cell] lands on a page, in order, whatever the
    page breaks. *)
Lemma concat_pages_cells (ls : list pystr) (d : FPDF.t) :
  concat (FPDF.pages (fold_left (fun d ln => FPDF.cell P h ln d) ls d))
  = concat (FPDF.pages d) ++ ls.
Proof using Type.
  revert d; induction ls as [|ln ls IH]; intros d; simpl.
  - now rewrite app_nil_r.
  - rewrite IH. unfold FPDF.cell. simpl.
    destruct (FPDF.page_break_trigger P <? FPDF.y d + h * FPDF.unit P); simpl;
      rewrite concat_put_line, ?concat_app; simpl;
      rewrite ?app_nil_r, <- app_assoc; reflexivity.
Qed.

(** The number of pages after [ls] more lines, from a document whose
    current page holds [k] lines. *)
Lemma page_count_cells (ls : list pystr) (d : FPDF.t) (k : Z) :
  1 <= cap ->
  FPDF.pages d <> [] ->
  FPDF.y d = FPDF.t_margin P + k * hu ->
  0 <= k <= cap ->
  1 <= k + Z.of_nat (length ls) ->
  Z.of_nat (length (FPDF.pages (fold_left (fun d ln => FPDF.cell P h ln d) ls d)))
  = Z.of_nat (length (FPDF.pages d)) + (k + Z.of_nat (length ls) - 1) / cap.
Proof using hu_pos.
  intros Hcap. revert d k; induction ls as [|ln ls IH]; intros d k Hne Hy Hk Hm.
  - simpl in *. rewrite Z.div_small by lia. lia.
  - cbn [fold_left]. set (d1 := FPDF.cell P h ln d).
    assert (Hbreak : (FPDF.page_break_trigger P <? FPDF.y d + h * FPDF.unit P)
                     = (cap <? k + 1)).
    { rewrite Hy. apply page_break_iff. lia. }
    destruct (Z.ltb_spec cap (k + 1)) as [Hfull|Hroom].
    + (* the page is full: the line opens a new page *)
      assert (Hk' : k = cap) by lia.
      assert (Hp1 : length (FPDF.pages d1) = S (length (FPDF.pages d))).
      { subst d1. unfold FPDF.cell. rewrite Hbreak. simpl.
        rewrite length_put_line by (destruct (FPDF.pages d); discriminate).
        rewrite length_app. simpl. lia. }
      assert (Hy1 : FPDF.y d1 = FPDF.t_margin P + 1 * hu).
      { subst d1 hu. unfold FPDF.cell. rewrite Hbreak. simpl. lia. }
      rewrite (IH d1 1); try lia; try assumption.
      * rewrite Hp1, Hk'. rewrite length_cons.
        replace (cap + Z.of_nat (S (length ls)) - 1) with (1 * cap + Z.of_nat (length ls)) by lia.
        rewrite Z.div_add_l by lia.
        replace (1 + Z.of_nat (length ls) - 1) with (Z.of_nat (length ls)) by lia. lia.
      * intros Hnil. rewrite Hnil in Hp1. discriminate.
    + (* the line fits *)
      assert (Hp1 : length (FPDF.pages d1) = length (FPDF.pages d)).
      { subst d1. unfold FPDF.cell. rewrite Hbreak. simpl. now apply length_put_line. }
      assert (Hy1 : FPDF.y d1 = FPDF.t_margin P + (k + 1) * hu).
      { subst d1 hu. unfold FPDF.cell. rewrite Hbreak. simpl. lia. }
      rewrite (IH d1 (k + 1)); try lia; try assumption.
      * rewrite Hp1, length_cons. do 2 f_equal. lia.
      * intros Hnil. rewrite Hnil in Hp1. destruct (FPDF.pages d); [congruence|discriminate].
Qed.

End Layout.

(** [ceil_div] is the ceiling of the quotient: the least number of pages of
    [b] lines that hold [a] lines. *)
Lemma ceil_div_spec (a b : Z) :
  0 < b -> (ceil_div a b - 1) * b < a <= ceil_div a b * b.
Proof.
  intros Hb. unfold ceil_div.
  pose proof (Z.div_mod (a + b - 1) b ltac:(lia)).
  pose proof (Z.mod_pos_bound (a + b - 1) b Hb). nia.
Qed.

Lemma pages_build_pdf_concat (P : FPDF.params) (text : pystr) :
  concat (FPDF.pages (build_pdf P text)) = FPDF.wrap P (text_or_placeholder text).
Proof.
  unfold build_pdf, FPDF.multi_cell. now rewrite concat_pages_cells.
Qed.

(** The page count of a rendered document with at least one line. *)
Lemma page_count_build_pdf (P : FPDF.params) (text : pystr) :
  0 < FPDF.unit P ->
  1 <= FPDF.lines_per_page P 10 ->
  (1 <= length (FPDF.wrap P (text_or_placeholder text)))%nat ->
  Z.of_nat (page_count P text)
  = ceil_div (Z.of_nat (length (FPDF.wrap P (text_or_placeholder text))))
             (FPDF.lines_per_page P 10).
Proof.
  intros Hu Hcap Hn. unfold page_count, build_pdf, FPDF.multi_cell.
  rewrite (page_count_cells P 10 ltac:(lia) _ _ 0); simpl; try lia; try discriminate.
  unfold ceil_div.
  set (n := Z.of_nat (length (FPDF.wrap P (text_or_placeholder text)))).
  set (c := FPDF.lines_per_page P 10) in *.
  replace (n + c - 1) with (1 * c + (n - 1)) by lia.
  rewrite Z.div_add_l by lia.
  replace (0 + n - 1) with (n - 1) by lia. reflexivity.
Qed.

(** ** Rendering *)

Lemma render_is_ok (P : FPDF.params) (now : Z) (text : pystr) :
  is_ok (render P now text) = true
  <-> Forall latin1 (FPDF.wrap P (text_or_placeholder text)).
Proof.
  rewrite <- pages_build_pdf_concat. unfold render, FPDF.output.
  set (pgs := FPDF.pages (build_pdf P text)).
  transitivity (is_ok (rmap (rmap encode_latin1) pgs) = true).
  - destruct (rmap (rmap encode_latin1) pgs) as [content|e]; simpl; [|reflexivity].
    fold (encode_latin1 (decode_latin1 (FPDF.serialize P now content))).
    rewrite encode_decode_latin1. reflexivity.
  - rewrite rmap_is_ok. rewrite Forall_concat.
    apply Forall_iff. intros pg. rewrite rmap_is_ok.
    apply Forall_iff. intros ln. apply encode_latin1_is_ok.
Qed.

Lemma render_raise (P : FPDF.params) (now : Z) (text : pystr) (e : exn) :
  render P now text = Raise e ->
  exists c i ln, e = UnicodeEncodeError c i /\ (255 < c)%N /\
                 c ∈ ln /\ ln ∈ FPDF.wrap P (text_or_placeholder text).
Proof.
  rewrite <- pages_build_pdf_concat. unfold render, FPDF.output.
  set (pgs := FPDF.pages (build_pdf P text)).
  destruct (rmap (rmap encode_latin1) pgs) as [content|e'] eqn:Hc; simpl.
  - fold (encode_latin1 (decode_latin1 (FPDF.serialize P now content))).
    rewrite encode_decode_latin1. discriminate.
  - intros [= <-]. apply rmap_raise in Hc. destruct Hc as (pg & Hpg & Hc).
    apply rmap_raise in Hc. destruct Hc as (ln & Hln & Hc).
    apply encode_latin1_from_raise in Hc. destruct Hc as (c & i & -> & Hin & Hgt).
    exists c, i, ln. repeat split; auto.
    apply list_elem_of_In, in_concat. exists pg.
    split; apply list_elem_of_In; assumption.
Qed.

(** On success the body is the serialisation of all the pages. *)
Lemma render_ok (P : FPDF.params) (now : Z) (text : pystr) (doc : list byte) :
  render P now text = Ok doc ->
  exists content,
    rmap (rmap encode_latin1) (FPDF.pages (build_pdf P text)) = Ok content /\
    doc = FPDF.serialize P now content.
Proof.
  unfold render, FPDF.output.
  destruct (rmap (rmap encode_latin1) (FPDF.pages (build_pdf P text))) as [content|e];
    simpl; [|discriminate].
  fold (encode_latin1 (decode_latin1 (FPDF.serialize P now content))).
  rewrite encode_decode_latin1. intros [= <-]. eauto.
Qed.

(** ** The request handler and its stages *)

(** *** Temporary file *)

(** When every stage returns, or only rendering fails, the staged file is
    gone and the file system is as before the request. *)
Lemma temp_file_removed_after_recognition (L : libs) (file : list byte) (w : world)
    (audio : ndarray) (rate : Z) (text : pystr) :
  sf_read L file = Ok (audio, rate) ->
  transcribe L (ensure_mono audio, rate) = Ok text ->
  fs (snd (audio_to_pdf L file w)) = fs w.
Proof.
  intros H1 H2. now rewrite (run_transcribed L file w audio rate text H1 H2).
Qed.

(** C1.  The claim asks that the temporary file staging the upload be removed
    on every exit path.  The handler removes it with [os.remove] on line 149
    only, after recognition has returned: when decoding or recognition
    raises, the exception leaves the handler before that line, and the file,
    absent before the request, is still there after it, holding the
    upload. *)
Theorem C1_temp_file_left_behind_on_failure (L : libs) (file : list byte) (w : world)
    (e : exn) :
  rbind (normalize L file) (transcribe L) = Raise e ->
  fst (audio_to_pdf L file w) = Raise e /\
  fs w !! tmp_name w = None /\
  fs (snd (audio_to_pdf L file w)) !! tmp_name w = Some file.
Proof.
  unfold normalize. intros H.
  destruct (sf_read L file) as [[audio rate]|e'] eqn:Hread; simpl in H.
  - rewrite (run_recognition_failed L file w audio rate e Hread H). simpl.
    split; [reflexivity|]. split; [apply tmp_name_fresh|apply lookup_insert_eq].
  - injection H as ->. rewrite (run_decode_failed L file w e Hread). simpl.
    split; [reflexivity|]. split; [apply tmp_name_fresh|apply lookup_insert_eq].
Qed.

Lemma C1_temp_file_left_behind_witness :
  fst (audio_to_pdf (Stub.engines []) Stub.garbage Stub.boot)
    = Raise (DecodeError (lit "Format not recognised.")) /\
  fs Stub.boot !! tmp_name Stub.boot = None /\
  fs (snd (audio_to_pdf (Stub.engines []) Stub.garbage Stub.boot)) !! tmp_name Stub.boot
    = Some Stub.garbage.
Proof.
  apply (C1_temp_file_left_behind_on_failure (Stub.engines []) Stub.garbage Stub.boot).
  reflexivity.
Defined.

(** *** Rendering and the content of the text *)

(** The claim fails for a transcript with a character above U+00FF: with the
    same engine at the same time, the euro sign makes rendering raise while
    the letters EUR render. *)
Lemma C2_euro_sign_fails_to_render :
  render Stub.a4 0 Stub.euro = Raise (UnicodeEncodeError 8364 0) /\
  is_ok (render Stub.a4 0 (lit "EUR")) = true.
Proof. split; reflexivity. Qed.

(** C2, amended.  Rendering returns a document exactly when every character
    that word wrapping puts on a page is a Latin-1 character (at most
    U+00FF); a character above U+00FF is neither represented nor replaced by
    a fallback glyph, it makes serialisation raise [UnicodeEncodeError] for
    that character, and no other error leaves the renderer.  In particular,
    when wrapping adds no character of its own, every transcript of Latin-1
    characters renders. *)
Theorem C2_render_fails_exactly_outside_latin1 (P : FPDF.params) (now : Z) (text : pystr) :
  (is_ok (render P now text) = true
   <-> Forall latin1 (FPDF.wrap P (text_or_placeholder text))) /\
  (forall e, render P now text = Raise e ->
     exists c i ln, e = UnicodeEncodeError c i /\ (255 < c)%N /\
                    c ∈ ln /\ ln ∈ FPDF.wrap P (text_or_placeholder text)) /\
  ((forall s ln c, ln ∈ FPDF.wrap P s -> c ∈ ln -> c ∈ s) ->
   latin1 text -> is_ok (render P now text) = true).
Proof.
  split; [apply render_is_ok|]. split; [apply render_raise|].
  intros Hwrap Htext. apply render_is_ok.
  assert (Hsrc : latin1 (text_or_placeholder text)).
  { unfold text_or_placeholder. destruct (truthy text); [exact Htext|apply latin1_lit]. }
  apply Forall_forall. intros ln Hln. apply Forall_forall. intros c Hc.
  unfold latin1 in Hsrc. rewrite Forall_forall in Hsrc. apply Hsrc. eauto.
Qed.

(** *** The empty transcript *)

Lemma build_pdf_placeholder (P : FPDF.params) :
  FPDF.t_margin P + 10 * FPDF.unit P <= FPDF.page_break_trigger P ->
  FPDF.wrap P No_speech_detected = [No_speech_detected] ->
  FPDF.pages (build_pdf P []) = [[No_speech_detected]].
Proof.
  intros Hpage Hline. unfold build_pdf, FPDF.multi_cell.
  change (text_or_placeholder []) with No_speech_detected. rewrite Hline.
  cbn [fold_left]. unfold FPDF.cell. cbn [FPDF.y FPDF.set_font FPDF.add_page FPDF.new].
  destruct (Z.ltb_spec (FPDF.page_break_trigger P) (FPDF.t_margin P + 10 * FPDF.unit P));
    [lia|reflexivity].
Qed.

(** C4.  For a page that holds at least one line and a page width that holds
    the placeholder on one line, the document built for the empty transcript
    has exactly one page, whose only line is the fixed phrase
    "No speech detected."; rendering it returns a document, and a request
    whose recognition returns the empty transcript is answered with that
    document instead of an error. *)
Theorem C4_empty_transcript_placeholder_page (L : libs) (file : list byte) (w : world)
    (audio : ndarray) (rate : Z) :
  FPDF.t_margin (fpdf L) + 10 * FPDF.unit (fpdf L) <= FPDF.page_break_trigger (fpdf L) ->
  FPDF.wrap (fpdf L) No_speech_detected = [No_speech_detected] ->
  sf_read L file = Ok (audio, rate) ->
  transcribe L (ensure_mono audio, rate) = Ok [] ->
  FPDF.pages (build_pdf (fpdf L) []) = [[No_speech_detected]] /\
  page_count (fpdf L) [] = 1%nat /\
  exists line,
    encode_latin1 No_speech_detected = Ok line /\
    render (fpdf L) (now w) [] = Ok (FPDF.serialize (fpdf L) (now w) [[line]]) /\
    fst (audio_to_pdf L file w)
      = Ok (respond (FPDF.serialize (fpdf L) (now w) [[line]])).
Proof.
  intros Hpage Hline Hread Htext.
  pose proof (build_pdf_placeholder (fpdf L) Hpage Hline) as Hpages.
  split; [exact Hpages|]. split; [unfold page_count; now rewrite Hpages|].
  destruct (encode_latin1 No_speech_detected) as [line|e] eqn:Henc.
  - exists line. split; [reflexivity|].
    assert (Hr : render (fpdf L) (now w) [] = Ok (FPDF.serialize (fpdf L) (now w) [[line]])).
    { unfold render, FPDF.output. rewrite Hpages. cbn [rmap].
      fold (encode_latin1 No_speech_detected). rewrite Henc. cbn [rbind].
      fold (encode_latin1 (decode_latin1 (FPDF.serialize (fpdf L) (now w) [[line]]))).
      apply encode_decode_latin1. }
    split; [exact Hr|].
    rewrite (run_transcribed L file w audio rate [] Hread Htext). cbn [fst].
    now rewrite Hr.
  - pose proof (proj2 (encode_latin1_is_ok No_speech_detected) (latin1_lit _)) as Hok.
    rewrite Henc in Hok. discriminate.
Qed.

Lemma C4_empty_transcript_placeholder_page_witness :
  FPDF.pages (build_pdf Stub.a4 []) = [[No_speech_detected]] /\
  page_count Stub.a4 [] = 1%nat /\
  exists line,
    encode_latin1 No_speech_detected = Ok line /\
    render Stub.a4 0 [] = Ok (FPDF.serialize Stub.a4 0 [[line]]) /\
    fst (audio_to_pdf (Stub.engines []) Stub.riff Stub.boot)
      = Ok (respond (FPDF.serialize Stub.a4 0 [[line]])).
Proof.
  apply (C4_empty_transcript_placeholder_page (Stub.engines []) Stub.riff Stub.boot
           Stub.stereo 16000).
  - vm_compute. discriminate.
  - reflexivity.
  - reflexivity.
  - reflexivity.
Defined.

(** *** Page count *)

(** C8.  When the wrapped lines of the text are more than one page holds,
    the rendered document has [ceil(lines / lines-per-page)] pages. *)
Theorem C8_page_count_is_ceiling (P : FPDF.params) (text : pystr) :
  0 < FPDF.unit P ->
  1 <= FPDF.lines_per_page P 10 ->
  FPDF.lines_per_page P 10
    < Z.of_nat (length (FPDF.wrap P (text_or_placeholder text))) ->
  Z.of_nat (page_count P text)
  = ceil_div (Z.of_nat (length (FPDF.wrap P (text_or_placeholder text))))
             (FPDF.lines_per_page P 10).
Proof.
  intros Hu Hcap Hlong. apply page_count_build_pdf; lia.
Qed.

Lemma C8_page_count_is_ceiling_witness :
  Z.of_nat (page_count Stub.a4 Stub.long_text)
  = ceil_div (Z.of_nat (length (FPDF.wrap Stub.a4 (text_or_placeholder Stub.long_text))))
             (FPDF.lines_per_page Stub.a4 10).
Proof.
  apply (C8_page_count_is_ceiling Stub.a4 Stub.long_text).
  - reflexivity.
  - vm_compute. discriminate.
  - reflexivity.
Defined.

(** The witness text has 31 lines, a page of the test double holds 26, and
    the document has two pages. *)
Example long_text_pages :
  length (FPDF.wrap Stub.a4 (text_or_placeholder Stub.long_text)) = 31%nat /\
  FPDF.lines_per_page Stub.a4 10 = 26 /\
  page_count Stub.a4 Stub.long_text = 2%nat /\
  map (@length pystr) (FPDF.pages (build_pdf Stub.a4 Stub.long_text)) = [26; 5]%nat.
Proof. repeat split; reflexivity. Qed.

(** *** Normalisation *)

Lemma waveforms_app (cs cs' : list call) :
  waveforms (cs ++ cs') = waveforms cs ++ waveforms cs'.
Proof. unfold waveforms. apply flat_map_app. Qed.

(** After a successful decode the waveform is handed over exactly when line
    144 is reached, with the sample rate the decoder returned and the bytes
    of the mono array. *)
Lemma waveform_handed_over (L : libs) (file : list byte) (w : world)
    (audio : ndarray) (rate : Z) :
  sf_read L file = Ok (audio, rate) ->
  waveforms (calls (snd (audio_to_pdf L file w)))
  = waveforms (calls w)
      ++ (if recognizer_ready L rate
          then [(rate, tobytes (nan_bits L) (ensure_mono audio))] else []).
Proof.
  intros Hread.
  destruct (transcribe L (ensure_mono audio, rate)) as [text|e] eqn:Htr.
  - rewrite (run_transcribed L file w audio rate text Hread Htr). cbn [snd calls].
    rewrite waveforms_app. apply transcribe_ready in Htr. simpl in Htr.
    now rewrite Htr.
  - rewrite (run_recognition_failed L file w audio rate e Hread Htr). cbn [snd calls].
    rewrite waveforms_app. destruct (recognizer_ready L rate); reflexivity.
Qed.



(** The sum of a row of eight values: a balanced tree of additions, added
    to 0.0. *)
Lemma np_sum_eight (a0 a1 a2 a3 a4 a5 a6 a7 : float64) :
  np_sum [a0; a1; a2; a3; a4; a5; a6; a7]
  = f64_add f64_zero
      (f64_add (f64_add (f64_add a0 a1) (f64_add a2 a3))
               (f64_add (f64_add a4 a5) (f64_add a6 a7))).
Proof. reflexivity. Qed.



(** The mean of 0.5 and 0.25 is 0.375, that of -0.5 and 0.5 is 0. *)
Example stereo_mixdown :
  ensure_mono Stub.stereo
  = Array1 [S754_finite false 6755399441055744 (-54); S754_zero false].
Proof. reflexivity. Qed.

(** C6.  Exchanging the left and right channel of every frame of a stereo
    input leaves the mono buffer unchanged. *)
Theorem C6_stereo_mixdown_ignores_channel_order (rows : list (list float64)) :
  ensure_mono (Array2 2 (map swap_channels rows)) = ensure_mono (Array2 2 rows).
Proof.
  simpl. f_equal. unfold mean_axis1. rewrite map_map.
  apply map_ext. intros fr. apply np_mean_swap.
Qed.

Example stereo_swapped_mixdown :
  Stub.stereo_swapped = Array2 2 (map swap_channels [[Stub.half; Stub.quarter];
                                                     [Stub.minus_half; Stub.half]]) /\
  ensure_mono Stub.stereo_swapped = ensure_mono Stub.stereo.
Proof. split; reflexivity. Qed.

(** *** Propagation of failures *)

(** A failure of the stages in sequence is the failure of the first stage
    that failed, the stages before it having returned. *)
Lemma stages_raise (L : libs) (now : Z) (file : list byte) (e : exn) :
  stages L now file = Raise e ->
  normalize L file = Raise e \/
  (exists buffer, normalize L file = Ok buffer /\ transcribe L buffer = Raise e) \/
  (exists buffer text, normalize L file = Ok buffer /\ transcribe L buffer = Ok text /\
                       render (fpdf L) now text = Raise e).
Proof.
  unfold stages. destruct (normalize L file) as [buffer|e1]; simpl.
  - destruct (transcribe L buffer) as [text|e2] eqn:Htr; simpl.
    + destruct (render (fpdf L) now text) as [doc|e3] eqn:Hr; simpl; [discriminate|].
      intros [= <-]. right; right. eauto.
    + intros [= <-]. right; left. eauto.
  - intros [= <-]. now left.
Qed.

Lemma audio_to_pdf_stages (L : libs) (file : list byte) (w : world) :
  fst (audio_to_pdf L file w) = stages L (now w) file.
Proof.
  unfold stages, normalize.
  destruct (sf_read L file) as [[audio rate]|e] eqn:Hread; simpl.
  - destruct (transcribe L (ensure_mono audio, rate)) as [text|e] eqn:Htr; simpl.
    + now rewrite (run_transcribed L file w audio rate text Hread Htr).
    + now rewrite (run_recognition_failed L file w audio rate e Hread Htr).
  - now rewrite (run_decode_failed L file w e Hread).
Qed.

(** C7.  The handler returns what the three stages in sequence return: the
    response built from a complete document when all of them return, and
    otherwise the exception of the first stage that raised, unchanged.  A
    failure ends the request at once: after a failed decode nothing more is
    called; when the recogniser cannot be created or configured no
    waveform is handed over; after a failed recognition the file is not
    removed and the renderer is not called.  A response that is returned has as its body the
    serialisation of every page of the document of the transcript, with the
    media type and the header of lines 160-164. *)
Theorem C7_first_failure_propagates (L : libs) (file : list byte) (w : world) :
  fst (audio_to_pdf L file w) = stages L (now w) file /\
  (forall e, fst (audio_to_pdf L file w) = Raise e ->
     normalize L file = Raise e \/
     (exists buffer, normalize L file = Ok buffer /\ transcribe L buffer = Raise e) \/
     (exists buffer text, normalize L file = Ok buffer /\ transcribe L buffer = Ok text /\
                          render (fpdf L) (now w) text = Raise e)) /\
  (forall e, normalize L file = Raise e ->
     fst (audio_to_pdf L file w) = Raise e /\
     calls (snd (audio_to_pdf L file w)) = calls w ++ [SfRead (tmp_name w)]) /\
  (forall buffer e, normalize L file = Ok buffer -> kaldi L (snd buffer) = Raise e ->
     fst (audio_to_pdf L file w) = Raise e /\
     calls (snd (audio_to_pdf L file w))
       = calls w ++ [SfRead (tmp_name w); KaldiRecognizer (snd buffer)]) /\
  (forall buffer recognizer e,
     normalize L file = Ok buffer -> kaldi L (snd buffer) = Ok recognizer ->
     set_words recognizer = Raise e ->
     fst (audio_to_pdf L file w) = Raise e /\
     calls (snd (audio_to_pdf L file w))
       = calls w ++ [SfRead (tmp_name w); KaldiRecognizer (snd buffer)]) /\
  (forall buffer recognizer e,
     normalize L file = Ok buffer -> kaldi L (snd buffer) = Ok recognizer ->
     set_words recognizer = Ok () -> transcribe L buffer = Raise e ->
     fst (audio_to_pdf L file w) = Raise e /\
     calls (snd (audio_to_pdf L file w))
       = calls w ++ [SfRead (tmp_name w);
                     KaldiRecognizer (snd buffer);
                     AcceptWaveform (snd buffer) (tobytes (nan_bits L) (fst buffer))]) /\
  (forall buffer text e,
     normalize L file = Ok buffer -> transcribe L buffer = Ok text ->
     render (fpdf L) (now w) text = Raise e ->
     fst (audio_to_pdf L file w) = Raise e /\
     calls (snd (audio_to_pdf L file w))
       = calls w ++ [SfRead (tmp_name w);
                     KaldiRecognizer (snd buffer);
                     AcceptWaveform (snd buffer) (tobytes (nan_bits L) (fst buffer));
                     OsRemove (tmp_name w);
                     FpdfOutput (build_pdf (fpdf L) text)]) /\
  (forall r, fst (audio_to_pdf L file w) = Ok r ->
     exists text content,
       before_remove L file = Ok text /\
       rmap (rmap encode_latin1) (FPDF.pages (build_pdf (fpdf L) text)) = Ok content /\
       length content = page_count (fpdf L) text /\
       body r = FPDF.serialize (fpdf L) (now w) content /\
       media_type r = "application/pdf"%string /\
       headers r
         = [("Content-Disposition", "attachment; filename=transcribed.pdf")]%string).
Proof.
  split; [apply audio_to_pdf_stages|].
  split; [intros e He; rewrite audio_to_pdf_stages in He; now apply stages_raise|].
  unfold before_remove, normalize.
  destruct (sf_read L file) as [[audio rate]|e0] eqn:Hread; simpl.
  - split; [discriminate|]. split.
    { intros buffer e [= <-] Hk. simpl in *.
      assert (Htr : transcribe L (ensure_mono audio, rate) = Raise e)
        by (unfold transcribe; simpl; now rewrite Hk).
      rewrite (run_recognition_failed L file w audio rate e Hread Htr). simpl.
      unfold recognizer_ready. now rewrite Hk. }
    split.
    { intros buffer recognizer e [= <-] Hk Hs. simpl in *.
      assert (Htr : transcribe L (ensure_mono audio, rate) = Raise e)
        by (unfold transcribe; simpl; rewrite Hk; simpl; now rewrite Hs).
      rewrite (run_recognition_failed L file w audio rate e Hread Htr). simpl.
      unfold recognizer_ready. rewrite Hk. simpl. now rewrite Hs. }
    split.
    { intros buffer recognizer e [= <-] Hk Hs Htr. simpl in *.
      rewrite (run_recognition_failed L file w audio rate e Hread Htr). simpl.
      unfold recognizer_ready. rewrite Hk. simpl. now rewrite Hs. }
    split.
    { intros buffer text e [= <-] Htr Hdoc. simpl in *.
      rewrite (run_transcribed L file w audio rate text Hread Htr). simpl.
      now rewrite Hdoc. }
    intros r Hr.
    destruct (transcribe L (ensure_mono audio, rate)) as [text|e] eqn:Htr.
    + rewrite (run_transcribed L file w audio rate text Hread Htr) in Hr. simpl in Hr.
      destruct (render (fpdf L) (now w) text) as [doc|e] eqn:Hdoc; simpl in Hr;
        [|discriminate].
      injection Hr as <-. apply render_ok in Hdoc.
      destruct Hdoc as (content & Hc & ->).
      exists text, content. split; [reflexivity|]. split; [exact Hc|].
      split; [unfold page_count; now apply rmap_ok_length in Hc|].
      repeat split.
    + rewrite (run_recognition_failed L file w audio rate e Hread Htr) in Hr.
      discriminate.
  - split.
    { intros e [= <-]. now rewrite (run_decode_failed L file w e0 Hread). }
    do 4 (split; [discriminate|]).
    intros r Hr. rewrite (run_decode_failed L file w e0 Hread) in Hr. discriminate.
Qed.

(** The failures on the test doubles: an upload that does not decode, a
    recogniser that cannot be created, one that cannot be configured, a
    transcript outside Latin-1. *)
Example decode_failure_propagates :
  fst (audio_to_pdf (Stub.engines []) Stub.garbage Stub.boot)
  = Raise (DecodeError (lit "Format not recognised.")).
Proof. reflexivity. Qed.

Example recognition_failure_propagates :
  audio_to_pdf Stub.no_model Stub.riff Stub.boot
  = (Raise (RecognitionError (lit "Failed to create a recognizer")),
     World {[ tmp_name Stub.boot := Stub.riff ]} 0
       [SfRead (tmp_name Stub.boot); KaldiRecognizer 16000]).
Proof. reflexivity. Qed.

Example configuration_failure_propagates :
  audio_to_pdf Stub.unconfigurable Stub.riff Stub.boot
  = (Raise (RecognitionError (lit "SetWords failed")),
     World {[ tmp_name Stub.boot := Stub.riff ]} 0
       [SfRead (tmp_name Stub.boot); KaldiRecognizer 16000]).
Proof. reflexivity. Qed.

Example render_failure_propagates :
  audio_to_pdf (Stub.engines Stub.euro) Stub.riff Stub.boot
  = (Raise (UnicodeEncodeError 8364 0),
     World ∅ 0
       [SfRead (tmp_name Stub.boot);
        KaldiRecognizer 16000;
        AcceptWaveform 16000 (tobytes Stub.quiet_nan (ensure_mono Stub.stereo));
        OsRemove (tmp_name Stub.boot);
        FpdfOutput (build_pdf Stub.a4 Stub.euro)]).
Proof. reflexivity. Qed.

(** *** What the response depends on *)

(** X10.  The handler gives the renderer nothing but the transcript: two requests
    whose transcripts are equal and that are served at the same time are
    answered with the same bytes, whatever was uploaded, whatever the file
    system held and whatever was called before.  Whether two requests served
    at different times are answered with the same bytes rests with the
    byte-level format of the engine. *)
Lemma response_determined_by_transcript_and_time (L : libs)
    (file1 file2 : list byte) (w1 w2 : world)
    (audio1 audio2 : ndarray) (rate1 rate2 : Z) (text : pystr) :
  sf_read L file1 = Ok (audio1, rate1) ->
  sf_read L file2 = Ok (audio2, rate2) ->
  transcribe L (ensure_mono audio1, rate1) = Ok text ->
  transcribe L (ensure_mono audio2, rate2) = Ok text ->
  now w1 = now w2 ->
  fst (audio_to_pdf L file1 w1) = fst (audio_to_pdf L file2 w2).
Proof.
  intros Hr1 Hr2 Ht1 Ht2 Hnow.
  rewrite (run_transcribed L file1 w1 audio1 rate1 text Hr1 Ht1).
  rewrite (run_transcribed L file2 w2 audio2 rate2 text Hr2 Ht2).
  simpl. now rewrite Hnow.
Qed.

(** *** Whitespace-only transcripts *)

(** C9.  A recogniser result whose text is empty or consists of whitespace
    only gives the empty transcript, as the empty text does, so that the
    placeholder phrase is what is laid out and rendered. *)
Theorem C9_whitespace_transcript_gets_placeholder (res : gmap string json) (s : pystr) :
  Forall (fun c => is_space c = true) s ->
  transcript_text (<["text"%string := JString s]> res) = Ok [] /\
  transcript_text (<["text"%string := JString s]> res)
    = transcript_text (<["text"%string := JString []]> res) /\
  text_or_placeholder (strip s) = No_speech_detected /\
  forall P now,
    build_pdf P (strip s) = build_pdf P [] /\
    concat (FPDF.pages (build_pdf P (strip s))) = FPDF.wrap P No_speech_detected /\
    render P now (strip s) = render P now [].
Proof.
  intros Hs. pose proof (strip_spaces s Hs) as Hstrip.
  unfold transcript_text. rewrite !lookup_insert_eq. simpl. rewrite Hstrip.
  split; [reflexivity|]. split; [reflexivity|]. split; [reflexivity|].
  intros P now. split; [reflexivity|]. split; [|reflexivity].
  apply pages_build_pdf_concat.
Qed.

Lemma C9_whitespace_transcript_gets_placeholder_witness :
  transcript_text (<["text"%string := JString (lit "  ")]> ∅) = Ok [] /\
  transcript_text (<["text"%string := JString (lit "  ")]> ∅)
    = transcript_text (<["text"%string := JString []]> ∅) /\
  text_or_placeholder (strip (lit "  ")) = No_speech_detected /\
  forall P now,
    build_pdf P (strip (lit "  ")) = build_pdf P [] /\
    concat (FPDF.pages (build_pdf P (strip (lit "  ")))) = FPDF.wrap P No_speech_detected /\
    render P now (strip (lit "  ")) = render P now [].
Proof.
  apply (C9_whitespace_transcript_gets_placeholder ∅ (lit "  ")).
  repeat constructor.
Defined.

(** A missing ["text"] key reads as the empty transcript too, and inner
    whitespace is kept. *)
Example transcript_text_examples :
  transcript_text ∅ = Ok [] /\
  transcript_text {[ "text"%string := JString (lit " hello world ") ]}
    = Ok (lit "hello world") /\
  transcript_text {[ "text"%string := JNull ]} = Raise AttributeError.
Proof. repeat split; reflexivity. Qed.

(** *** The bytes handed to the recogniser *)

Lemma length_tobytes_ensure_mono (nan : nat -> Z) (a : ndarray) :
  length (tobytes nan (ensure_mono a)) = pcm_length itemsize a.
Proof.
  unfold tobytes. rewrite length_items_bytes. unfold pcm_length.
  rewrite <- (frames_ensure_mono a). now destruct a.
Qed.

(** The bytes of a value that is not a NaN do not depend on the NaN
    patterns in memory. *)
Lemma f64_bytes_not_nan (nan nan' : Z) (x : float64) :
  x <> S754_nan -> f64_bytes nan x = f64_bytes nan' x.
Proof. now destruct x. Qed.

(** C10.  The recogniser receives the in-memory bytes of the mono float64
    array, not integer PCM.  After a successful decode the waveform is
    handed over, in one call, when the recogniser could be created for the
    decoder's sample rate and configured, and not at all when it could not.  The bytes
    handed over are eight per frame, the eight bytes of frame [i] being the
    little-endian binary64 pattern of the sample at frame [i] (for a NaN, its
    pattern in memory).  For a clip with at least one frame this is neither
    the length of 16-bit nor that of 32-bit PCM. *)
Theorem C10_recognizer_gets_raw_float64_bytes (L : libs) (file : list byte) (w : world)
    (audio : ndarray) (rate : Z) :
  sf_read L file = Ok (audio, rate) ->
  (recognizer_ready L rate = true ->
     waveforms (calls (snd (audio_to_pdf L file w)))
     = waveforms (calls w) ++ [(rate, tobytes (nan_bits L) (ensure_mono audio))]) /\
  (recognizer_ready L rate = false ->
     waveforms (calls (snd (audio_to_pdf L file w))) = waveforms (calls w)) /\
  length (samples (ensure_mono audio)) = frames audio /\
  length (tobytes (nan_bits L) (ensure_mono audio)) = pcm_length 8 audio /\
  (forall i x, samples (ensure_mono audio) !! i = Some x ->
     take 8 (drop (8 * i) (tobytes (nan_bits L) (ensure_mono audio)))
       = le_bytes 8 (f64_bits (nan_bits L i) x) /\
     (x <> S754_nan -> forall nan,
        le_bytes 8 (f64_bits (nan_bits L i) x) = le_bytes 8 (f64_bits nan x))) /\
  (frames audio <> 0%nat ->
   length (tobytes (nan_bits L) (ensure_mono audio)) <> pcm_length 2 audio /\
   length (tobytes (nan_bits L) (ensure_mono audio)) <> pcm_length 4 audio).
Proof.
  intros Hread.
  split.
  { intros Hs. rewrite (waveform_handed_over L file w audio rate Hread).
    now rewrite Hs. }
  split.
  { intros He. rewrite (waveform_handed_over L file w audio rate Hread).
    rewrite He. apply app_nil_r. }
  split; [rewrite <- (frames_ensure_mono audio); now destruct audio|].
  pose proof (length_tobytes_ensure_mono (nan_bits L) audio) as Hlen.
  split; [exact Hlen|].
  split.
  { intros i x Hx. split.
    - apply (items_bytes_lookup (nan_bits L) _ i x Hx).
    - intros Hnan nan. apply (f64_bytes_not_nan _ _ x Hnan). }
  intros Hframes. rewrite Hlen. unfold pcm_length, itemsize. lia.
Qed.

Lemma C10_recognizer_gets_raw_float64_bytes_witness :
  (recognizer_ready (Stub.engines []) 16000 = true ->
     waveforms (calls (snd (audio_to_pdf (Stub.engines []) Stub.riff Stub.boot)))
     = waveforms (calls Stub.boot)
         ++ [(16000, tobytes Stub.quiet_nan (ensure_mono Stub.stereo))]) /\
  (recognizer_ready (Stub.engines []) 16000 = false ->
     waveforms (calls (snd (audio_to_pdf (Stub.engines []) Stub.riff Stub.boot)))
     = waveforms (calls Stub.boot)) /\
  length (samples (ensure_mono Stub.stereo)) = frames Stub.stereo /\
  length (tobytes Stub.quiet_nan (ensure_mono Stub.stereo)) = pcm_length 8 Stub.stereo /\
  (forall i x, samples (ensure_mono Stub.stereo) !! i = Some x ->
     take 8 (drop (8 * i) (tobytes Stub.quiet_nan (ensure_mono Stub.stereo)))
       = le_bytes 8 (f64_bits (Stub.quiet_nan i) x) /\
     (x <> S754_nan -> forall nan,
        le_bytes 8 (f64_bits (Stub.quiet_nan i) x) = le_bytes 8 (f64_bits nan x))) /\
  (frames Stub.stereo <> 0%nat ->
   length (tobytes Stub.quiet_nan (ensure_mono Stub.stereo)) <> pcm_length 2 Stub.stereo /\
   length (tobytes Stub.quiet_nan (ensure_mono Stub.stereo)) <> pcm_length 4 Stub.stereo).
Proof.
  apply (C10_recognizer_gets_raw_float64_bytes (Stub.engines []) Stub.riff Stub.boot
           Stub.stereo 16000).
  reflexivity.
Defined.

(** The sample 0.375 goes out as the bytes of the binary64 pattern
    3FD8000000000000, least significant byte first; the waveform of the test
    clip is that sample followed by 0.0. *)
Example f64_bytes_0375 :
  f64_bytes 0 (S754_finite false 6755399441055744 (-54))
    = [x00; x00; x00; x00; x00; x00; xd8; x3f] /\
  tobytes Stub.quiet_nan (ensure_mono Stub.stereo)
    = [x00; x00; x00; x00; x00; x00; xd8; x3f;
       x00; x00; x00; x00; x00; x00; x00; x00].
Proof. split; reflexivity. Qed.

(** A NaN goes out with the sign and payload it has in memory: the quiet
    NaN with its sign bit set, FFF8000000000000, as those bytes. *)
Example f64_bytes_nan :
  f64_bytes 18444492273895866368 S754_nan
    = [x00; x00; x00; x00; x00; x00; xf8; xff] /\
  nan_pattern 18444492273895866368.
Proof. split; [reflexivity|]. unfold nan_pattern. split; [lia|]. vm_compute. reflexivity. Qed.

(** ** Further properties of the handler *)

(** *** The file system *)

(** What a request does to the file system and the clock: nothing when the
    transcript was obtained, one new file holding the upload otherwise. *)
Lemma audio_to_pdf_world (L : libs) (file : list byte) (w : world) :
  now (snd (audio_to_pdf L file w)) = now w /\
  fs (snd (audio_to_pdf L file w))
  = if is_ok (before_remove L file) then fs w else <[tmp_name w := file]> (fs w).
Proof.
  unfold before_remove, normalize.
  destruct (sf_read L file) as [[audio rate]|e] eqn:Hread; simpl.
  - destruct (transcribe L (ensure_mono audio, rate)) as [text|e] eqn:Htr; simpl.
    + now rewrite (run_transcribed L file w audio rate text Hread Htr).
    + now rewrite (run_recognition_failed L file w audio rate e Hread Htr).
  - now rewrite (run_decode_failed L file w e Hread).
Qed.

(** X1.  A file that exists before a request exists after it with the same
    contents, on every exit path: the handler writes to a path that was not
    in use and removes no other path. *)
Theorem X1_existing_files_untouched (L : libs) (file : list byte) (w : world)
    (p : string) (data : list byte) :
  fs w !! p = Some data ->
  fs (snd (audio_to_pdf L file w)) !! p = Some data.
Proof.
  intros Hp. destruct (audio_to_pdf_world L file w) as [_ ->].
  destruct (is_ok (before_remove L file)); [exact Hp|].
  rewrite lookup_insert_ne; [exact Hp|].
  intros Heq. pose proof (tmp_name_fresh w) as Hfresh. rewrite Heq in Hfresh. congruence.
Qed.

Lemma X1_existing_files_untouched_witness :
  fs (snd (audio_to_pdf (Stub.engines []) Stub.garbage Stub.busy)) !! "notes.txt"%string
  = Some [x68; x69].
Proof.
  apply (X1_existing_files_untouched (Stub.engines []) Stub.garbage Stub.busy).
  reflexivity.
Defined.

(** X2.  The file system after a request equals the file system before it
    exactly when decoding, recognition and the extraction of the transcript
    all returned; a later failure of rendering changes nothing, since the
    temporary file is removed before the document is built. *)
Theorem X2_file_system_restored_iff_transcribed (L : libs) (file : list byte) (w : world) :
  fs (snd (audio_to_pdf L file w)) = fs w <-> is_ok (before_remove L file) = true.
Proof.
  destruct (audio_to_pdf_world L file w) as [_ ->].
  destruct (is_ok (before_remove L file)); split; try reflexivity; try discriminate.
  intros Heq. pose proof (tmp_name_fresh w) as Hfresh.
  rewrite <- Heq, lookup_insert_eq in Hfresh. discriminate.
Qed.

Lemma serve_cons (L : libs) (q : request) (requests : list request) (w : world) :
  serve L (q :: requests) w
  = (fst (audio_to_pdf (engines_for L q) (upload q) (at_time (served_at q) w))
       :: fst (serve L requests
                 (snd (audio_to_pdf (engines_for L q) (upload q) (at_time (served_at q) w)))),
     snd (serve L requests
            (snd (audio_to_pdf (engines_for L q) (upload q) (at_time (served_at q) w))))).
Proof.
  simpl. destruct (audio_to_pdf (engines_for L q) (upload q) (at_time (served_at q) w))
    as [r w1]. simpl.
  now destruct (serve L requests w1).
Qed.

(** X3.  Over any sequence of requests handled one at a time, each at its own
    clock reading and with its own sample memory, the number of files grows
    by exactly the number of requests that failed before line 149 (in
    decoding, recognition or the extraction of the transcript);
    every response is that of the three stages on its own upload at its own
    clock reading; and the files that existed at the start are all still
    there, unchanged. *)
Theorem X3_failed_requests_accumulate_files (L : libs) (requests : list request)
    (w : world) :
  size (fs (snd (serve L requests w)))
  = (size (fs w)
     + length (filter (fun q => is_ok (before_remove (engines_for L q) (upload q)) = false)
                      requests))%nat /\
  fst (serve L requests w)
  = map (fun q => stages (engines_for L q) (served_at q) (upload q)) requests /\
  forall p data, fs w !! p = Some data -> fs (snd (serve L requests w)) !! p = Some data.
Proof.
  revert w; induction requests as [|q requests IH]; intros w.
  - simpl. split; [lia|]. split; [reflexivity|]. auto.
  - rewrite serve_cons. cbn [fst snd].
    set (L' := engines_for L q). set (w' := at_time (served_at q) w).
    destruct (IH (snd (audio_to_pdf L' (upload q) w'))) as (Hsize & Hresp & Hkeep).
    destruct (audio_to_pdf_world L' (upload q) w') as [Hnow Hfs].
    change (fs w') with (fs w) in Hfs. change (tmp_name w') with (tmp_name w) in Hfs.
    split; [|split].
    + rewrite Hsize, Hfs, filter_cons. fold L'.
      destruct (is_ok (before_remove L' (upload q))) eqn:Hok.
      * rewrite decide_False by discriminate. lia.
      * rewrite decide_True by reflexivity.
        rewrite map_size_insert_None by apply tmp_name_fresh. simpl. lia.
    + rewrite Hresp. cbn [map]. f_equal. apply audio_to_pdf_stages.
    + intros p data Hp. apply Hkeep. rewrite Hfs.
      destruct (is_ok (before_remove L' (upload q))); [exact Hp|].
      rewrite lookup_insert_ne; [exact Hp|].
      intros Heq. pose proof (tmp_name_fresh w) as Hfresh. rewrite Heq in Hfresh. congruence.
Qed.

(** Three undecodable uploads and one good one leave three files behind, and
    the document of the good one carries the clock reading of its own
    request. *)
Example three_failures_three_files :
  let requests := [Request Stub.garbage 5 Stub.quiet_nan;
                   Request Stub.riff 7 Stub.quiet_nan;
                   Request Stub.garbage 8 Stub.quiet_nan;
                   Request Stub.garbage 9 Stub.quiet_nan] in
  size (fs (snd (serve (Stub.engines []) requests Stub.boot))) = 3%nat /\
  fst (serve (Stub.engines []) requests Stub.boot) !! 1%nat
  = Some (Ok (respond (le_bytes 8 7 ++ xff :: [x4e; x6f; x20; x73; x70; x65; x65; x63; x68;
                                              x20; x64; x65; x74; x65; x63; x74; x65; x64;
                                              x2e]))).
Proof. split; vm_compute; reflexivity. Qed.

(** *** The transcript *)

Lemma lstrip_split (s : pystr) :
  exists pre, s = pre ++ lstrip s /\ Forall (fun c => is_space c = true) pre.
Proof.
  induction s as [|c s (pre & Hs & Hpre)]; simpl.
  - exists []. split; [reflexivity|constructor].
  - destruct (is_space c) eqn:Hc.
    + exists (c :: pre). split; [simpl; now f_equal|now constructor].
    + exists []. split; [reflexivity|constructor].
Qed.

Lemma lstrip_fixed (s : pystr) :
  (forall c r, s = c :: r -> is_space c = false) -> lstrip s = s.
Proof.
  destruct s as [|c r]; [reflexivity|]. intros H. simpl.
  now rewrite (H c r eq_refl).
Qed.

Lemma rstrip_split (s : pystr) :
  exists post, s = rstrip s ++ post /\ Forall (fun c => is_space c = true) post.
Proof.
  unfold rstrip. destruct (lstrip_split (rev s)) as (pre & Hs & Hpre).
  exists (rev pre). split; [|now apply Forall_rev].
  rewrite <- rev_app_distr, <- Hs. symmetry. apply rev_involutive.
Qed.

Lemma rstrip_last (s r : pystr) (c : N) : rstrip s = r ++ [c] -> is_space c = false.
Proof.
  unfold rstrip. intros H.
  apply (lstrip_head (rev s) c (rev r)).
  rewrite <- (rev_involutive (lstrip (rev s))), H, rev_app_distr. reflexivity.
Qed.

(** X4.  [str.strip] as line 146 uses it: the stripped text is the original
    without a run of whitespace at its start and one at its end, it neither
    begins nor ends with a whitespace character, what lies between is kept
    as it is, and stripping again changes nothing. *)
Theorem X4_strip_removes_exactly_outer_whitespace (s : pystr) :
  (exists pre post,
     s = pre ++ strip s ++ post /\
     Forall (fun c => is_space c = true) pre /\
     Forall (fun c => is_space c = true) post) /\
  (forall c r, strip s = c :: r -> is_space c = false) /\
  (forall r c, strip s = r ++ [c] -> is_space c = false) /\
  strip (strip s) = strip s.
Proof.
  assert (Hhead : forall c r, strip s = c :: r -> is_space c = false).
  { unfold strip. intros c r H.
    destruct (rstrip_split (lstrip s)) as (post & Hs & _).
    rewrite H in Hs. simpl in Hs. now apply lstrip_head in Hs. }
  assert (Hlast : forall r c, strip s = r ++ [c] -> is_space c = false).
  { unfold strip. intros r c. apply rstrip_last. }
  split; [|split; [exact Hhead|split; [exact Hlast|]]].
  - destruct (lstrip_split s) as (pre & Hs & Hpre).
    destruct (rstrip_split (lstrip s)) as (post & Ht & Hpost).
    exists pre, post. split; [|split; assumption].
    unfold strip. now rewrite <- Ht.
  - unfold strip at 1. rewrite (lstrip_fixed (strip s) Hhead).
    unfold rstrip. rewrite lstrip_fixed; [apply rev_involutive|].
    intros c r Hrev. apply (Hlast (rev r) c).
    rewrite <- (rev_involutive (strip s)), Hrev. reflexivity.
Qed.

(** X5.  The transcript is empty exactly when the recogniser's result has no
    ["text"] member or its text consists of whitespace only; and the phrase
    "No speech detected." is what is laid out exactly when the transcript is
    empty or is that very phrase. *)
Theorem X5_placeholder_exactly_for_empty_transcript (res : gmap string json) (text : pystr) :
  (transcript_text res = Ok []
   <-> res !! "text"%string = None \/
       exists s, res !! "text"%string = Some (JString s) /\
                 Forall (fun c => is_space c = true) s) /\
  (text_or_placeholder text = No_speech_detected
   <-> text = [] \/ text = No_speech_detected).
Proof.
  split.
  - unfold transcript_text. destruct (res !! "text"%string) as [v|]; simpl.
    + destruct v as [| | |s| |]; simpl;
        try (split; [discriminate|intros [[=]|(s' & [=] & _)]]).
      split.
      * intros [= Hs]. right. exists s. split; [reflexivity|now apply strip_nil_iff].
      * intros [[=]|(s' & [= <-] & Hs)]. f_equal. now apply strip_nil_iff.
    + split; [now left|reflexivity].
  - unfold text_or_placeholder. destruct text as [|c text]; simpl.
    + split; [now left|reflexivity].
    + split; [now right|]. intros [[=]|H]; exact H.
Qed.

(** *** The Latin-1 codec *)

Lemma encode_latin1_from_ok (pos : nat) (s : pystr) (b : list byte) :
  encode_latin1_from pos s = Ok b -> decode_latin1 b = s.
Proof.
  revert pos b; induction s as [|c s IH]; intros pos b; simpl.
  - now intros [= <-].
  - destruct (Byte.of_N c) as [x|] eqn:Hc; [|discriminate].
    destruct (encode_latin1_from (S pos) s) as [bs|e] eqn:Hs; simpl; [|discriminate].
    intros [= <-]. simpl. f_equal; [now apply Byte.to_of_N|eauto].
Qed.

Lemma encode_latin1_from_raise_iff (pos : nat) (s : pystr) (e : exn) :
  encode_latin1_from pos s = Raise e <->
  exists c j, e = UnicodeEncodeError c (pos + j) /\ s !! j = Some c /\
              (255 < c)%N /\ latin1 (take j s).
Proof.
  revert pos e; induction s as [|c s IH]; intros pos e; simpl.
  - split; [discriminate|]. intros (c & j & _ & Hj & _). now destruct j.
  - destruct (Byte.of_N c) as [x|] eqn:Hc.
    + assert (Hle : (c <= 255)%N).
      { apply Byte.to_of_N in Hc; subst c; apply Byte.to_N_bounded. }
      assert (Hshift : forall j, (S pos + j = pos + S j)%nat) by (intros; lia).
      destruct (encode_latin1_from (S pos) s) as [bs|e'] eqn:Hs; simpl.
      * split; [discriminate|]. intros (c' & j & -> & Hj & Hgt & Htake).
        destruct j as [|j]; simpl in *.
        -- injection Hj as <-. lia.
        -- assert (H : encode_latin1_from (S pos) s
                       = Raise (UnicodeEncodeError c' (S pos + j))).
           { apply IH. exists c', j. split; [reflexivity|]. split; [exact Hj|].
             split; [exact Hgt|]. now apply Forall_cons in Htake. }
           rewrite Hs in H. discriminate.
      * split.
        -- intros [= <-]. destruct (proj1 (IH (S pos) e') Hs) as (c' & j & -> & Hj & Hgt & Htake).
           exists c', (S j). split; [now rewrite Hshift|]. split; [exact Hj|].
           split; [exact Hgt|]. simpl. now constructor.
        -- intros (c' & j & -> & Hj & Hgt & Htake).
           destruct j as [|j]; simpl in *.
           ++ injection Hj as <-. lia.
           ++ rewrite <- Hshift, <- Hs. apply IH. exists c', j.
              split; [reflexivity|]. split; [exact Hj|]. split; [exact Hgt|].
              now apply Forall_cons in Htake.
    + apply Byte.of_N_None_iff in Hc. split.
      * intros [= <-]. exists c, 0%nat. split; [now rewrite Nat.add_0_r|].
        split; [reflexivity|]. split; [exact Hc|constructor].
      * intros (c' & j & -> & Hj & Hgt & Htake).
        destruct j as [|j]; simpl in *.
        -- injection Hj as <-. now rewrite Nat.add_0_r.
        -- apply Forall_cons in Htake. destruct Htake as [Hle _]. lia.
Qed.

(** X6.  The codec of line 157 loses nothing: bytes decoded as Latin-1
    encode back to the same bytes, and a string that encodes decodes back to
    itself, one byte per character. *)
Theorem X6_latin1_round_trip :
  (forall b, encode_latin1 (decode_latin1 b) = Ok b) /\
  (forall s b, encode_latin1 s = Ok b -> decode_latin1 b = s /\ length b = length s).
Proof.
  split; [apply encode_decode_latin1|].
  intros s b H. apply encode_latin1_from_ok in H. subst s.
  split; [reflexivity|]. unfold decode_latin1. now rewrite length_map.
Qed.

(** X7.  The strict codec fails exactly at the first character above U+00FF:
    encoding raises [UnicodeEncodeError] for character [c] at index [i]
    exactly when [c] is the character at index [i], lies above U+00FF, and
    every character before it is a Latin-1 character. *)
Theorem X7_latin1_fails_at_first_wide_character (s : pystr) (e : exn) :
  encode_latin1 s = Raise e <->
  exists c i, e = UnicodeEncodeError c i /\ s !! i = Some c /\
              (255 < c)%N /\ latin1 (take i s).
Proof. apply (encode_latin1_from_raise_iff 0). Qed.

Example encode_latin1_examples :
  encode_latin1 (lit "caf" ++ [233]%N) = Ok [x63; x61; x66; xe9] /\
  encode_latin1 (lit "5 " ++ [8364; 8364]%N) = Raise (UnicodeEncodeError 8364 2).
Proof. split; reflexivity. Qed.

(** *** The waveform *)

(** X8.  The recogniser is handed an empty waveform exactly when the decoded
    clip has no frames, whatever its channel count and whatever NaN patterns
    its memory holds. *)
Theorem X8_empty_waveform_iff_no_frames (nan : nat -> Z) (audio : ndarray) :
  tobytes nan (ensure_mono audio) = [] <-> frames audio = 0%nat.
Proof.
  pose proof (length_tobytes_ensure_mono nan audio) as Hlen.
  unfold pcm_length, itemsize in Hlen. split.
  - intros H. rewrite H in Hlen. simpl in Hlen. lia.
  - intros H. apply length_zero_iff_nil. lia.
Qed.

(** *** The bytes of the samples *)

Lemma digits2_pos_bounds (m : positive) :
  2 ^ (Z.pos (digits2_pos m) - 1) <= Z.pos m < 2 ^ Z.pos (digits2_pos m).
Proof.
  induction m as [m IH|m IH|]; cbn [digits2_pos].
  - rewrite Pos2Z.inj_succ, (Pos2Z.inj_xI m).
    replace (Z.succ (Z.pos (digits2_pos m)) - 1) with (Z.succ (Z.pos (digits2_pos m) - 1)) by lia.
    rewrite !Z.pow_succ_r by lia. lia.
  - rewrite Pos2Z.inj_succ, (Pos2Z.inj_xO m).
    replace (Z.succ (Z.pos (digits2_pos m)) - 1) with (Z.succ (Z.pos (digits2_pos m) - 1)) by lia.
    rewrite !Z.pow_succ_r by lia. lia.
  - simpl. lia.
Qed.

(** A finite value in memory is subnormal, with the least exponent and a
    mantissa below 2^52, or normal, with a mantissa of exactly 53 bits. *)
Lemma valid_finite_bounds (s : bool) (m : positive) (e : Z) :
  valid_f64 (S754_finite s m e) ->
  (Z.pos m < 4503599627370496 /\ e = -1074) \/
  (4503599627370496 <= Z.pos m < 9007199254740992 /\ -1074 <= e <= 971).
Proof.
  unfold valid_f64, valid_binary, bounded, canonical_mantissa, fexp, emin.
  intros H. apply andb_true_iff in H. destruct H as [Hc He].
  apply Z.eqb_eq in Hc. apply Z.leb_le in He.
  pose proof (digits2_pos_bounds m) as Hd.
  set (d := Z.pos (digits2_pos m)) in *.
  assert (Hdpos : 0 < d) by (subst d; lia).
  destruct (Z.max_spec (d + e - 53) (3 - 1024 - 53)) as [[Hlt Hmax]|[Hge Hmax]];
    rewrite Hmax in Hc.
  - (* the least exponent *)
    assert (Hd53 : d <= 53) by lia.
    destruct (Z.eq_dec d 53) as [Heq|Hne].
    + right. rewrite Heq in Hd. change (2 ^ (53 - 1)) with 4503599627370496 in Hd.
      change (2 ^ 53) with 9007199254740992 in Hd. lia.
    + left. split; [|lia].
      assert (Hpow : 2 ^ d <= 2 ^ 52) by (apply Z.pow_le_mono_r; lia).
      change (2 ^ 52) with 4503599627370496 in Hpow. lia.
  - right. assert (Heq : d = 53) by lia. rewrite Heq in Hd.
    change (2 ^ (53 - 1)) with 4503599627370496 in Hd.
    change (2 ^ 53) with 9007199254740992 in Hd. lia.
Qed.

(** The bit pattern of each kind of value, with the powers of two written
    out: 2^63 for the sign, 2^52 for one step of the exponent. *)
Lemma f64_bits_cases (nan : Z) (x : float64) :
  f64_bits nan x
  = match x with
    | S754_zero s => if s then 9223372036854775808 else 0
    | S754_infinity s => (if s then 9223372036854775808 else 0) + 9218868437227405312
    | S754_nan => nan
    | S754_finite s m e =>
        (if s then 9223372036854775808 else 0)
        + (if Z.pos m <? 4503599627370496 then Z.pos m
           else (e + 1075) * 4503599627370496 + (Z.pos m - 4503599627370496))
    end.
Proof. destruct x as [[]|[]| |[] m e]; reflexivity. Qed.

(** A NaN pattern lies strictly above the pattern of the infinity of its
    sign and below the next sign boundary. *)
Lemma nan_pattern_cases (p : Z) :
  nan_pattern p ->
  9218868437227405312 < p < 9223372036854775808 \/
  18442240474082181120 < p < 18446744073709551616.
Proof.
  unfold nan_pattern. change (2 ^ 64) with 18446744073709551616.
  change (2047 * 2 ^ 52) with 9218868437227405312.
  change (2 ^ 63) with 9223372036854775808.
  intros [Hp Hm].
  destruct (Z.lt_ge_cases p 9223372036854775808) as [Hlt|Hge].
  - rewrite Z.mod_small in Hm by lia. lia.
  - replace p with (p - 9223372036854775808 + 1 * 9223372036854775808) in Hm by lia.
    rewrite Z.mod_add in Hm by lia. rewrite Z.mod_small in Hm by lia. lia.
Qed.

Lemma f64_bits_range (nan : Z) (x : float64) :
  nan_pattern nan -> valid_f64 x -> 0 <= f64_bits nan x < 18446744073709551616.
Proof.
  intros Hn Hv. rewrite f64_bits_cases. destruct x as [s|s| |s m e].
  - destruct s; lia.
  - destruct s; lia.
  - apply nan_pattern_cases in Hn. lia.
  - apply valid_finite_bounds in Hv.
    destruct (Z.ltb_spec (Z.pos m) 4503599627370496); destruct s; lia.
Qed.

(** Two values with the same bit pattern are the same value, whatever
    patterns their NaNs have. *)
Lemma f64_bits_inj (nan1 nan2 : Z) (x y : float64) :
  nan_pattern nan1 -> nan_pattern nan2 ->
  valid_f64 x -> valid_f64 y -> f64_bits nan1 x = f64_bits nan2 y -> x = y.
Proof.
  intros Hn1 Hn2 Hx Hy. rewrite !f64_bits_cases.
  apply nan_pattern_cases in Hn1. apply nan_pattern_cases in Hn2.
  destruct x as [sx|sx| |sx mx ex], y as [sy|sy| |sy my ey]; intros Hbits;
    try (apply valid_finite_bounds in Hx); try (apply valid_finite_bounds in Hy);
    repeat match type of Hbits with
           | context [if Z.ltb ?a ?b then _ else _] =>
               destruct (Z.ltb_spec a b) as [?Hlt|?Hge]
           | context [if ?b then _ else _] => destruct b
           end;
    try reflexivity; try (exfalso; lia).
  all: assert (Hm : Z.pos mx = Z.pos my /\ ex = ey) by lia.
  all: destruct Hm as [Hm ->]; apply Pos2Z.inj in Hm; subst my; reflexivity.
Qed.

Lemma byte_of_Z_value (z : Z) : Z.of_N (Byte.to_N (byte_of_Z z)) = z mod 256.
Proof.
  unfold byte_of_Z. pose proof (Z.mod_pos_bound z 256 ltac:(lia)) as Hb.
  destruct (Byte.of_N (Z.to_N (z mod 256))) as [b|] eqn:Hof.
  - apply Byte.to_of_N in Hof. rewrite Hof. apply Z2N.id. lia.
  - apply Byte.of_N_None_iff in Hof. lia.
Qed.

(** Reading back [n] little-endian bytes gives the number modulo 256^n. *)
Lemma le_value_le_bytes (n : nat) (v : Z) :
  le_value (le_bytes n v) = v mod 256 ^ Z.of_nat n.
Proof.
  revert v; induction n as [|n IH]; intros v.
  - simpl. now rewrite Z.mod_1_r.
  - cbn [le_bytes le_value]. rewrite byte_of_Z_value, IH.
    rewrite Nat2Z.inj_succ, Z.pow_succ_r by lia.
    symmetry. apply Z.rem_mul_r; [lia|]. apply Z.pow_pos_nonneg; lia.
Qed.

Lemma le_value_f64_bytes (nan : Z) (x : float64) :
  nan_pattern nan -> valid_f64 x -> le_value (f64_bytes nan x) = f64_bits nan x.
Proof.
  intros Hn Hx. unfold f64_bytes. rewrite le_value_le_bytes.
  change (256 ^ Z.of_nat itemsize) with 18446744073709551616.
  apply Z.mod_small. now apply f64_bits_range.
Qed.

Lemma f64_bytes_inj (nan1 nan2 : Z) (x y : float64) :
  nan_pattern nan1 -> nan_pattern nan2 ->
  valid_f64 x -> valid_f64 y -> f64_bytes nan1 x = f64_bytes nan2 y -> x = y.
Proof.
  intros Hn1 Hn2 Hx Hy H. apply (f64_bits_inj nan1 nan2); try assumption.
  apply (f_equal le_value) in H. now rewrite !le_value_f64_bytes in H.
Qed.

Lemma items_bytes_inj (nan1 nan2 : nat -> Z) (d1 d2 : list float64) :
  (forall i, nan_pattern (nan1 i)) -> (forall i, nan_pattern (nan2 i)) ->
  Forall valid_f64 d1 -> Forall valid_f64 d2 ->
  items_bytes nan1 d1 = items_bytes nan2 d2 -> d1 = d2.
Proof.
  intros Hn1 Hn2 H1. revert nan1 nan2 Hn1 Hn2 d2.
  induction H1 as [|x d1 Hx _ IH]; intros nan1 nan2 Hn1 Hn2 d2 H2 Heq.
  - destruct d2 as [|y d2]; [reflexivity|].
    apply (f_equal (@length byte)) in Heq.
    rewrite !length_items_bytes in Heq. simpl in Heq. discriminate.
  - destruct H2 as [|y d2 Hy H2].
    + apply (f_equal (@length byte)) in Heq.
      rewrite !length_items_bytes in Heq. simpl in Heq. discriminate.
    + rewrite !items_bytes_cons in Heq.
      apply app_inj_1 in Heq; [|now rewrite !length_f64_bytes].
      destruct Heq as [Hxy Hrest]. f_equal.
      * now apply (f64_bytes_inj (nan1 0%nat) (nan2 0%nat)).
      * apply (IH (nan1 ∘ S) (nan2 ∘ S)); try assumption; intros i; simpl; auto.
Qed.

(** X9.  The bytes handed to the recogniser lose nothing of the samples: each
    float64 in memory is eight bytes that read back, least significant byte
    first, as its binary64 pattern (for a NaN, as the pattern it has in
    memory), and two mono buffers of such values with the same bytes are the
    same buffer, whatever patterns their NaNs have. *)
Theorem X9_waveform_bytes_determine_samples (nan1 nan2 : nat -> Z)
    (d1 d2 : list float64) :
  (forall i, nan_pattern (nan1 i)) -> (forall i, nan_pattern (nan2 i)) ->
  Forall valid_f64 d1 -> Forall valid_f64 d2 ->
  (forall p x, nan_pattern p -> x ∈ d1 -> le_value (f64_bytes p x) = f64_bits p x) /\
  (forall i x, d1 !! i = Some x ->
     le_value (take 8 (drop (8 * i) (tobytes nan1 (Array1 d1)))) = f64_bits (nan1 i) x) /\
  (tobytes nan1 (Array1 d1) = tobytes nan2 (Array1 d2) -> d1 = d2).
Proof.
  intros Hn1 Hn2 H1 H2. split; [|split].
  - intros p x Hp Hx. rewrite Forall_forall in H1. now apply le_value_f64_bytes, H1.
  - intros i x Hx. unfold tobytes. cbn [samples].
    pose proof (items_bytes_lookup nan1 d1 i x Hx) as E. unfold itemsize in E. rewrite E.
    apply le_value_f64_bytes; [apply Hn1|].
    rewrite Forall_forall in H1. apply H1, list_elem_of_lookup. eauto.
  - now apply items_bytes_inj.
Qed.

Lemma X9_waveform_bytes_determine_samples_witness :
  (forall p x, nan_pattern p -> x ∈ [Stub.half; S754_nan] ->
     le_value (f64_bytes p x) = f64_bits p x) /\
  (forall i x, [Stub.half; S754_nan] !! i = Some x ->
     le_value (take 8 (drop (8 * i) (tobytes Stub.quiet_nan (Array1 [Stub.half; S754_nan]))))
     = f64_bits (Stub.quiet_nan i) x) /\
  (tobytes Stub.quiet_nan (Array1 [Stub.half; S754_nan])
   = tobytes Stub.signed_nan (Array1 [Stub.half; Stub.minus_half])
   -> [Stub.half; S754_nan] = [Stub.half; Stub.minus_half]).
Proof.
  apply (X9_waveform_bytes_determine_samples Stub.quiet_nan Stub.signed_nan
           [Stub.half; S754_nan] [Stub.half; Stub.minus_half]).
  - intros i. unfold nan_pattern, Stub.quiet_nan. split; [lia|]. vm_compute. reflexivity.
  - intros i. unfold nan_pattern, Stub.signed_nan. split; [lia|]. vm_compute. reflexivity.
  - repeat constructor.
  - repeat constructor.
Defined.

(** *** Two requests with the same transcript *)

Lemma response_determined_by_transcript_and_time_witness :
  fst (audio_to_pdf (Stub.engines (lit "hi")) Stub.riff Stub.boot)
  = fst (audio_to_pdf (Stub.engines (lit "hi")) Stub.riff_again Stub.busy).
Proof.
  apply (response_determined_by_transcript_and_time (Stub.engines (lit "hi"))
           Stub.riff Stub.riff_again Stub.boot Stub.busy
           Stub.stereo Stub.stereo 16000 16000 (lit "hi")).
  - reflexivity.
  - reflexivity.
  - reflexivity.
  - reflexivity.
  - reflexivity.
Defined.

(** *** The order of the calls *)

(** X11.  A request only adds to the calls made so far, starting with the
    decoder on the staged path.  It reads and removes no path but the one it
    staged, starts at most one recogniser pass, and asks for the document
    only as its last call, directly after removing the staged file. *)
Theorem X11_external_calls_in_order (L : libs) (file : list byte) (w : world) :
  exists new,
    calls (snd (audio_to_pdf L file w)) = calls w ++ new /\
    head new = Some (SfRead (tmp_name w)) /\
    (forall p, SfRead p ∈ new \/ OsRemove p ∈ new -> p = tmp_name w) /\
    (length (waveforms new) <= 1)%nat /\
    (forall d, FpdfOutput d ∈ new ->
       exists pre, new = pre ++ [OsRemove (tmp_name w); FpdfOutput d]).
Proof.
  destruct (sf_read L file) as [[audio rate]|e] eqn:Hread.
  - destruct (transcribe L (ensure_mono audio, rate)) as [text|e] eqn:Htr.
    + rewrite (run_transcribed L file w audio rate text Hread Htr). cbn [snd calls].
      eexists. split; [reflexivity|]. split; [reflexivity|].
      split; [intros p [Hp|Hp]; apply list_elem_of_In in Hp; simpl in Hp;
              intuition congruence|].
      split; [simpl; lia|].
      intros d Hd.
      exists [SfRead (tmp_name w); KaldiRecognizer rate;
              AcceptWaveform rate (tobytes (nan_bits L) (ensure_mono audio))].
      apply list_elem_of_In in Hd. simpl in Hd.
      assert (d = build_pdf (fpdf L) text) as -> by intuition congruence. reflexivity.
    + rewrite (run_recognition_failed L file w audio rate e Hread Htr). cbn [snd calls].
      eexists. split; [reflexivity|]. split; [reflexivity|].
      destruct (recognizer_ready L rate).
      * split; [intros p [Hp|Hp]; apply list_elem_of_In in Hp; simpl in Hp;
                intuition congruence|].
        split; [simpl; lia|].
        intros d Hd. apply list_elem_of_In in Hd. simpl in Hd. intuition congruence.
      * split; [intros p [Hp|Hp]; apply list_elem_of_In in Hp; simpl in Hp;
                intuition congruence|].
        split; [simpl; lia|].
        intros d Hd. apply list_elem_of_In in Hd. simpl in Hd. intuition congruence.
  - rewrite (run_decode_failed L file w e Hread). cbn [snd calls staged].
    eexists. split; [reflexivity|]. split; [reflexivity|].
    split; [intros p [Hp|Hp]; apply list_elem_of_In in Hp; simpl in Hp;
            intuition congruence|].
    split; [simpl; lia|].
    intros d Hd. apply list_elem_of_In in Hd. simpl in Hd. intuition congruence.
Qed.

(** *** Silence *)

Lemma all_zero_repeat (l : list float64) :
  Forall (fun x => x = f64_zero) l -> l = repeat f64_zero (length l).
Proof.
  induction 1 as [|x l -> _ IH]; [reflexivity|]. simpl. now f_equal.
Qed.

(** The mean of silence is silence, for up to eight channels. *)
Lemma np_mean_zeros (c : nat) :
  (1 <= c <= 8)%nat -> np_mean c (repeat f64_zero c) = f64_zero.
Proof.
  intros Hc.
  do 9 (destruct c as [|c]; [first [lia|reflexivity]|]). lia.
Qed.

Lemma tobytes_zeros (nan : nat -> Z) (n : nat) :
  tobytes nan (Array1 (repeat f64_zero n)) = repeat x00 (8 * n).
Proof.
  unfold tobytes. cbn [samples]. revert nan. induction n as [|n IH]; intros nan;
    [reflexivity|].
  cbn [repeat]. rewrite items_bytes_cons, IH.
  replace (8 * S n)%nat with (8 + 8 * n)%nat by lia.
  rewrite repeat_app. reflexivity.
Qed.

(** X12.  Silence in, silence out: for a mono clip, or a clip of two to
    eight channels, whose samples are all 0.0, the mixdown is all 0.0 and the
    waveform handed to the recogniser consists of zero bytes only, eight per
    frame. *)
Theorem X12_silent_clip_gives_zero_waveform (nan : nat -> Z) (audio : ndarray) :
  well_shaped audio -> (1 <= channels audio <= 8)%nat -> silent audio ->
  ensure_mono audio = Array1 (repeat f64_zero (frames audio)) /\
  tobytes nan (ensure_mono audio) = repeat x00 (8 * frames audio).
Proof.
  intros Hshape Hc Hsilent.
  assert (Hmono : ensure_mono audio = Array1 (repeat f64_zero (frames audio))).
  { destruct audio as [d|c rows]; unfold silent in Hsilent; simpl in *.
    - f_equal. now apply all_zero_repeat.
    - f_equal. unfold mean_axis1.
      induction rows as [|r rows IH]; [reflexivity|].
      rewrite concat_cons in Hsilent. apply Forall_app in Hsilent.
      destruct Hsilent as [Hr Hrest]. apply Forall_cons in Hshape.
      destruct Hshape as [Hlen Hshape]. cbn [map length repeat].
      f_equal; [|now apply IH].
      rewrite (all_zero_repeat r Hr), Hlen. now apply np_mean_zeros. }
  split; [exact Hmono|]. rewrite Hmono. apply tobytes_zeros.
Qed.

Lemma X12_silent_clip_gives_zero_waveform_witness :
  ensure_mono Stub.hush = Array1 (repeat f64_zero (frames Stub.hush)) /\
  tobytes Stub.signed_nan (ensure_mono Stub.hush) = repeat x00 (8 * frames Stub.hush).
Proof.
  apply (X12_silent_clip_gives_zero_waveform Stub.signed_nan Stub.hush).
  - simpl. repeat constructor.
  - simpl. lia.
  - unfold silent. simpl. repeat constructor.
Defined.
